(** * Verification of [create_request.py]

    The script reads [test_file.txt], hashes it with SHA-256, encodes it in
    base64, packs both with a few constants into a dictionary, serialises
    that dictionary with [json.dumps], wraps the text inside a GraphQL
    request dictionary and writes the request with [json.dump] to
    [upload_request.json].

    Layout of the development:
    - [Bytes]    : conversions between [byte], [ascii] and [Z];
    - [SHA256]   : [hashlib.sha256(..).hexdigest()] (FIPS 180-4);
    - [Base64]   : [base64.b64encode] and the RFC 4648 decoder;
    - [Json]     : [json.dumps] with default arguments and a JSON reader;
    - [Script]   : the script itself over a small file-system state;
    - theorems about the script. *)

From Stdlib Require Import ZArith Lia List Ascii String Bool.
From Stdlib.Strings Require Import Byte.
From Stdlib Require Import DecimalString DecimalPos DecimalZ.
From stdpp Require Import base option gmap strings.
Import ListNotations.

Local Open Scope Z_scope.

(** ** Bytes *)

Module Bytes.

Definition byte_to_Z (b : byte) : Z := Z.of_N (Byte.to_N b).

Definition Z_to_byte (z : Z) : byte :=
  match Byte.of_N (Z.to_N (z mod 256)) with
  | Some b => b
  | None => x00
  end.

(** Python's [bytes.decode()] on ASCII data, and its inverse. *)
Definition decode (bs : list byte) : string := string_of_list_byte bs.
Definition encode (s : string) : list byte := list_byte_of_string s.

Definition ascii_to_Z (c : ascii) : Z := Z.of_N (N_of_ascii c).
Definition Z_to_ascii (z : Z) : ascii := ascii_of_N (Z.to_N z).

(** The lowercase hexadecimal digit of a value below 16. *)
Definition hex_digit (n : Z) : ascii :=
  if n <? 10 then Z_to_ascii (48 + n) else Z_to_ascii (87 + n).

(** Membership in [0123456789abcdef]. *)
Definition is_lower_hex (c : ascii) : bool :=
  let n := ascii_to_Z c in
  ((48 <=? n) && (n <=? 57)) || ((97 <=? n) && (n <=? 102)).

(** Printable ASCII: the code points from 32 to 126. *)
Definition is_printable (c : ascii) : bool :=
  let n := ascii_to_Z c in (32 <=? n) && (n <=? 126).

Fixpoint all_printable (s : string) : bool :=
  match s with
  | EmptyString => true
  | String c r => is_printable c && all_printable r
  end.

End Bytes.

(** ** SHA-256 *)

Module SHA256.
Import Bytes.

Definition mask32 : Z := 0xffffffff.

Definition add32 (x y : Z) : Z := Z.land (x + y) mask32.
Definition shr (n x : Z) : Z := Z.shiftr x n.
Definition rotr (n x : Z) : Z :=
  Z.lor (Z.shiftr x n) (Z.land (Z.shiftl x (32 - n)) mask32).
Definition not32 (x : Z) : Z := Z.lxor x mask32.

Definition Ch (x y z : Z) : Z := Z.lxor (Z.land x y) (Z.land (not32 x) z).
Definition Maj (x y z : Z) : Z :=
  Z.lxor (Z.lxor (Z.land x y) (Z.land x z)) (Z.land y z).
Definition bsig0 (x : Z) : Z := Z.lxor (Z.lxor (rotr 2 x) (rotr 13 x)) (rotr 22 x).
Definition bsig1 (x : Z) : Z := Z.lxor (Z.lxor (rotr 6 x) (rotr 11 x)) (rotr 25 x).
Definition ssig0 (x : Z) : Z := Z.lxor (Z.lxor (rotr 7 x) (rotr 18 x)) (shr 3 x).
Definition ssig1 (x : Z) : Z := Z.lxor (Z.lxor (rotr 17 x) (rotr 19 x)) (shr 10 x).

(** The first sixty-four primes. *)
Definition primes : list Z :=
  [ 2; 3; 5; 7; 11; 13; 17; 19; 23; 29; 31; 37; 41; 43; 47; 53;
    59; 61; 67; 71; 73; 79; 83; 89; 97; 101; 103; 107; 109; 113; 127; 131;
    137; 139; 149; 151; 157; 163; 167; 173; 179; 181; 191; 193; 197; 199;
    211; 223; 227; 229; 233; 239; 241; 251; 257; 263; 269; 271; 277; 281;
    283; 293; 307; 311 ].

(** Integer cube root below [2 ^ bits], one bit at a time from the top. *)
Fixpoint cube_root (bits : nat) (n r : Z) : Z :=
  match bits with
  | O => r
  | S b =>
      let r' := r + 2 ^ Z.of_nat b in
      if r' * r' * r' <=? n then cube_root b n r' else cube_root b n r
  end.

(** The first 32 bits of the fractional part of the cube root, and of the
    square root, of a prime. *)
Definition cube_root_fraction (p : Z) : Z :=
  Z.land (cube_root 36 (p * 2 ^ 96) 0) mask32.
Definition square_root_fraction (p : Z) : Z :=
  Z.land (Z.sqrt (p * 2 ^ 64)) mask32.

(** The round constants (FIPS 180-4, section 4.2.2). *)
Definition K : list Z := Eval vm_compute in map cube_root_fraction primes.

(** The eight chaining words. *)
Record state : Type := State {
  sa : Z; sb : Z; sc : Z; sd : Z; se : Z; sf : Z; sg : Z; sh : Z
}.

(** The initial hash value (FIPS 180-4, section 5.3.3), from the first
    eight primes. *)
Definition initial : state :=
  Eval vm_compute in
    State (square_root_fraction 2) (square_root_fraction 3)
          (square_root_fraction 5) (square_root_fraction 7)
          (square_root_fraction 11) (square_root_fraction 13)
          (square_root_fraction 17) (square_root_fraction 19).

(** Big-endian serialisation of a word on [n] bytes. *)
Fixpoint be_bytes (n : nat) (x : Z) : list Z :=
  match n with
  | O => []
  | S m => Z.land (Z.shiftr x (8 * Z.of_nat m)) 0xff :: be_bytes m x
  end.

Definition be_word (bs : list Z) : Z :=
  fold_left (fun acc b => Z.lor (Z.shiftl acc 8) b) bs 0.

(** Padding: the message, the byte 0x80, zero bytes up to 56 modulo 64, and
    the bit length of the message on eight bytes. *)
Definition pad (msg : list byte) : list Z :=
  let l := Z.of_nat (length msg) in
  map byte_to_Z msg ++ [0x80]
    ++ repeat 0 (Z.to_nat ((55 - l) mod 64))
    ++ be_bytes 8 (8 * l).

Definition block (padded : list Z) (i : nat) : list Z :=
  firstn 64 (skipn (64 * i) padded).

Definition block_words (blk : list Z) : list Z :=
  map (fun j => be_word (firstn 4 (skipn (4 * j) blk))) (seq 0 16).

Definition extend (w : list Z) (t : nat) : list Z :=
  w ++ [add32 (add32 (add32 (ssig1 (nth (t - 2) w 0)) (nth (t - 7) w 0))
                     (ssig0 (nth (t - 15) w 0)))
              (nth (t - 16) w 0)].

Definition schedule (blk : list Z) : list Z :=
  fold_left extend (seq 16 48) (block_words blk).

Definition round (s : state) (kw : Z * Z) : state :=
  let '(k, w) := kw in
  let t1 := add32 (add32 (add32 (add32 (sh s) (bsig1 (se s)))
                                (Ch (se s) (sf s) (sg s))) k) w in
  let t2 := add32 (bsig0 (sa s)) (Maj (sa s) (sb s) (sc s)) in
  State (add32 t1 t2) (sa s) (sb s) (sc s) (add32 (sd s) t1) (se s) (sf s) (sg s).

Definition compress (s : state) (blk : list Z) : state :=
  let r := fold_left round (combine K (schedule blk)) s in
  State (add32 (sa s) (sa r)) (add32 (sb s) (sb r))
        (add32 (sc s) (sc r)) (add32 (sd s) (sd r))
        (add32 (se s) (se r)) (add32 (sf s) (sf r))
        (add32 (sg s) (sg r)) (add32 (sh s) (sh r)).

Definition hash_state (msg : list byte) : state :=
  let p := pad msg in
  fold_left (fun s i => compress s (block p i))
            (seq 0 (length p / 64)) initial.

Definition state_words (s : state) : list Z :=
  [sa s; sb s; sc s; sd s; se s; sf s; sg s; sh s].

(** [hashlib.sha256(msg).digest()] *)
Definition digest (msg : list byte) : list byte :=
  map Z_to_byte (flat_map (be_bytes 4) (state_words (hash_state msg))).

Definition hex_byte (b : byte) : list ascii :=
  [hex_digit (Z.shiftr (byte_to_Z b) 4); hex_digit (Z.land (byte_to_Z b) 0xf)].

Definition hex (bs : list byte) : string :=
  string_of_list_ascii (flat_map hex_byte bs).

(** [hashlib.sha256(msg).hexdigest()] *)
Definition hexdigest (msg : list byte) : string := hex (digest msg).

End SHA256.

(** ** Base64 *)

Module Base64.
Import Bytes.

(** The alphabet of RFC 4648, table 1, by index. *)
Definition b64_char (n : Z) : byte :=
  if n <? 26 then Z_to_byte (65 + n)
  else if n <? 52 then Z_to_byte (71 + n)
  else if n <? 62 then Z_to_byte (n - 4)
  else if n =? 62 then Z_to_byte 43
  else Z_to_byte 47.

Definition pad_char : byte := Z_to_byte 61.

(** The sextets of a group of three, two or one bytes. *)
Definition sextet1 (a : Z) : Z := Z.shiftr a 2.
Definition sextet2 (a b : Z) : Z :=
  Z.lor (Z.shiftl (Z.land a 0x3) 4) (Z.shiftr b 4).
Definition sextet3 (b c : Z) : Z :=
  Z.lor (Z.shiftl (Z.land b 0xf) 2) (Z.shiftr c 6).
Definition sextet4 (c : Z) : Z := Z.land c 0x3f.

(** [base64.b64encode]: bytes in, bytes out, padded with [=]. *)
Fixpoint b64encode (bs : list byte) : list byte :=
  match bs with
  | [] => []
  | [a] =>
      let a := byte_to_Z a in
      [b64_char (sextet1 a); b64_char (sextet2 a 0); pad_char; pad_char]
  | [a; b] =>
      let a := byte_to_Z a in
      let b := byte_to_Z b in
      [b64_char (sextet1 a); b64_char (sextet2 a b);
       b64_char (sextet3 b 0); pad_char]
  | a :: b :: c :: rest =>
      let a := byte_to_Z a in
      let b := byte_to_Z b in
      let c := byte_to_Z c in
      b64_char (sextet1 a) :: b64_char (sextet2 a b)
        :: b64_char (sextet3 b c) :: b64_char (sextet4 c)
        :: b64encode rest
  end.

(** The value of an alphabet character; [None] for every other byte,
    the padding character included. *)
Definition b64_value (c : byte) : option Z :=
  let z := byte_to_Z c in
  if (65 <=? z) && (z <=? 90) then Some (z - 65)
  else if (97 <=? z) && (z <=? 122) then Some (z - 71)
  else if (48 <=? z) && (z <=? 57) then Some (z + 4)
  else if z =? 43 then Some 62
  else if z =? 47 then Some 63
  else None.

Definition is_pad (c : byte) : bool := byte_to_Z c =? 61.

Definition octet1 (v1 v2 : Z) : byte :=
  Z_to_byte (Z.lor (Z.shiftl v1 2) (Z.shiftr v2 4)).
Definition octet2 (v2 v3 : Z) : byte :=
  Z_to_byte (Z.lor (Z.shiftl (Z.land v2 0xf) 4) (Z.shiftr v3 2)).
Definition octet3 (v3 v4 : Z) : byte :=
  Z_to_byte (Z.lor (Z.shiftl (Z.land v3 0x3) 6) v4).

(** The decoder of RFC 4648, section 4: groups of four characters, padding
    only in the last group, anything else is an error ([None]). *)
Fixpoint b64decode_bytes (cs : list byte) : option (list byte) :=
  match cs with
  | [] => Some []
  | c1 :: c2 :: c3 :: c4 :: rest =>
      match b64_value c1, b64_value c2 with
      | Some v1, Some v2 =>
          match b64_value c3, b64_value c4 with
          | Some v3, Some v4 =>
              match b64decode_bytes rest with
              | Some tl =>
                  Some (octet1 v1 v2 :: octet2 v2 v3 :: octet3 v3 v4 :: tl)
              | None => None
              end
          | Some v3, None =>
              match rest with
              | [] => if is_pad c4
                      then Some [octet1 v1 v2; octet2 v2 v3] else None
              | _ :: _ => None
              end
          | None, None =>
              match rest with
              | [] => if is_pad c3 && is_pad c4
                      then Some [octet1 v1 v2] else None
              | _ :: _ => None
              end
          | None, Some _ => None
          end
      | _, _ => None
      end
  | _ => None
  end.

(** One of the sixty-four characters of the alphabet. *)
Definition is_alphabet (c : byte) : bool :=
  match b64_value c with
  | Some _ => true
  | None => false
  end.

(** The number of padding characters after [n] bytes. *)
Definition pad_count (n : nat) : nat := ((3 - n mod 3) mod 3)%nat.

(** Decoding of a [str], as [base64.b64decode] accepts one. *)
Definition b64decode (s : string) : option (list byte) :=
  b64decode_bytes (encode s).

End Base64.

(** ** JSON *)

Module Json.
Import Bytes.
Local Open Scope string_scope.
Local Open Scope Z_scope.

(** The Python values the [json] module handles, floats apart.  A [dict]
    keeps its insertion order, which [json.dumps] follows. *)
#[local] Set Warnings "-register-all".

Inductive pyval : Type :=
| PyNone
| PyBool (b : bool)
| PyInt (n : Z)
| PyStr (s : string)
| PyList (xs : list pyval)
| PyDict (kvs : list (string * pyval)).

(** Induction on values that reaches inside lists and dictionaries. *)
Section PyvalInd.
Variable P : pyval -> Prop.
Hypothesis HNone : P PyNone.
Hypothesis HBool : forall b, P (PyBool b).
Hypothesis HInt : forall n, P (PyInt n).
Hypothesis HStr : forall s, P (PyStr s).
Hypothesis HList : forall xs, Forall P xs -> P (PyList xs).
Hypothesis HDict :
  forall kvs, Forall (fun kv => P (snd kv)) kvs -> P (PyDict kvs).

Fixpoint pyval_nested_ind (v : pyval) : P v :=
  match v with
  | PyNone => HNone
  | PyBool b => HBool b
  | PyInt n => HInt n
  | PyStr s => HStr s
  | PyList xs =>
      HList xs
        ((fix all (l : list pyval) : Forall P l :=
            match l with
            | [] => @List.Forall_nil _ P
            | x :: r => @List.Forall_cons _ P x r (pyval_nested_ind x) (all r)
            end) xs)
  | PyDict kvs =>
      HDict kvs
        ((fix all (l : list (string * pyval))
            : Forall (fun kv => P (snd kv)) l :=
            match l with
            | [] => @List.Forall_nil _ _
            | kv :: r =>
                @List.Forall_cons _ (fun kv => P (snd kv)) kv r (pyval_nested_ind (snd kv)) (all r)
            end) kvs)
  end.
End PyvalInd.

Definition dquote : ascii := "034"%char.
Definition backslash : ascii := "092"%char.

Definition chr (c : ascii) : string := String c EmptyString.

(** [json.encoder.py_encode_basestring_ascii], one character at a time:
    the table [ESCAPE_DCT], then [\uXXXX] for everything outside the
    printable ASCII range.  Characters are code points below 256. *)
Definition escape_char (c : ascii) : string :=
  let n := ascii_to_Z c in
  if n =? 92 then String backslash (chr backslash)
  else if n =? 34 then String backslash (chr dquote)
  else if n =? 8 then String backslash "b"
  else if n =? 12 then String backslash "f"
  else if n =? 10 then String backslash "n"
  else if n =? 13 then String backslash "r"
  else if n =? 9 then String backslash "t"
  else if (32 <=? n) && (n <=? 126) then chr c
  else String backslash
         (String "u" (String "0" (String "0"
           (String (hex_digit (Z.shiftr n 4))
                   (chr (hex_digit (Z.land n 0xf))))))).

Fixpoint escape (s : string) : string :=
  match s with
  | EmptyString => EmptyString
  | String c r => escape_char c ++ escape r
  end.

Definition encode_basestring_ascii (s : string) : string :=
  String dquote (escape s ++ chr dquote).

(** [int.__repr__] *)
Definition int_repr (n : Z) : string :=
  DecimalString.NilEmpty.string_of_int (Z.to_int n).

(** [json.dumps] with its default arguments: [ensure_ascii=True], item
    separator [", "], key separator [": "], no indentation, keys in
    insertion order. *)
Fixpoint dumps (v : pyval) : string :=
  match v with
  | PyNone => "null"
  | PyBool true => "true"
  | PyBool false => "false"
  | PyInt n => int_repr n
  | PyStr s => encode_basestring_ascii s
  | PyList xs => "[" ++ String.concat ", " (map dumps xs) ++ "]"
  | PyDict kvs =>
      "{" ++ String.concat ", "
               (map (fun kv => match kv with
                               | (k, x) => encode_basestring_ascii k ++ ": " ++ dumps x
                               end) kvs)
          ++ "}"
  end.

(** The text of one entry of a dictionary. *)
Definition item (kv : string * pyval) : string :=
  match kv with
  | (k, x) => encode_basestring_ascii k ++ ": " ++ dumps x
  end.

(** *** Reading JSON text

    A recursive-descent reader for the grammar of RFC 8259 without
    fractions and exponents, on texts whose characters are code points
    below 256.  Every text it accepts is well-formed JSON. *)

Definition is_ws (c : ascii) : bool :=
  let n := ascii_to_Z c in
  (n =? 32) || (n =? 9) || (n =? 10) || (n =? 13).

Fixpoint skip_ws (s : string) : string :=
  match s with
  | String c r => if is_ws c then skip_ws r else s
  | EmptyString => EmptyString
  end.

Definition hex_value (c : ascii) : option Z :=
  let n := ascii_to_Z c in
  if (48 <=? n) && (n <=? 57) then Some (n - 48)
  else if (97 <=? n) && (n <=? 102) then Some (n - 87)
  else if (65 <=? n) && (n <=? 70) then Some (n - 55)
  else None.

Definition hex4 (h1 h2 h3 h4 : ascii) : option Z :=
  match hex_value h1, hex_value h2, hex_value h3, hex_value h4 with
  | Some a, Some b, Some c, Some d => Some (((a * 16 + b) * 16 + c) * 16 + d)
  | _, _, _, _ => None
  end.

Definition simple_escape (e : ascii) : option ascii :=
  let n := ascii_to_Z e in
  if n =? 34 then Some dquote
  else if n =? 92 then Some backslash
  else if n =? 47 then Some "/"%char
  else if n =? 98 then Some (Z_to_ascii 8)
  else if n =? 102 then Some (Z_to_ascii 12)
  else if n =? 110 then Some (Z_to_ascii 10)
  else if n =? 114 then Some (Z_to_ascii 13)
  else if n =? 116 then Some (Z_to_ascii 9)
  else None.

Definition prepend (c : ascii) (r : option (string * string))
  : option (string * string) :=
  match r with
  | Some (s, rest) => Some (String c s, rest)
  | None => None
  end.

(** The characters of a string literal after its opening quote, up to and
    including the closing quote; returns the decoded string and the text
    that follows. *)
Fixpoint parse_string (s : string) : option (string * string) :=
  match s with
  | EmptyString => None
  | String c r =>
      if Ascii.eqb c dquote then Some (EmptyString, r)
      else if Ascii.eqb c backslash then
        match r with
        | EmptyString => None
        | String e r1 =>
            match simple_escape e with
            | Some c' => prepend c' (parse_string r1)
            | None =>
                if Ascii.eqb e "u" then
                  match r1 with
                  | String h1 (String h2 (String h3 (String h4 r2))) =>
                      match hex4 h1 h2 h3 h4 with
                      | Some n =>
                          if n <? 256
                          then prepend (Z_to_ascii n) (parse_string r2)
                          else None
                      | None => None
                      end
                  | _ => None
                  end
                else None
            end
        end
      else if ascii_to_Z c <? 32 then None
      else prepend c (parse_string r)
  end.

Definition digit (c : ascii) : option (Decimal.uint -> Decimal.uint) :=
  let n := ascii_to_Z c in
  if n =? 48 then Some Decimal.D0
  else if n =? 49 then Some Decimal.D1
  else if n =? 50 then Some Decimal.D2
  else if n =? 51 then Some Decimal.D3
  else if n =? 52 then Some Decimal.D4
  else if n =? 53 then Some Decimal.D5
  else if n =? 54 then Some Decimal.D6
  else if n =? 55 then Some Decimal.D7
  else if n =? 56 then Some Decimal.D8
  else if n =? 57 then Some Decimal.D9
  else None.

(** The longest run of decimal digits at the head of a text. *)
Fixpoint read_uint (s : string) : Decimal.uint * string :=
  match s with
  | EmptyString => (Decimal.Nil, EmptyString)
  | String c r =>
      match digit c with
      | Some f => let (d, rest) := read_uint r in (f d, rest)
      | None => (Decimal.Nil, s)
      end
  end.

(** Texts that do not go on with a digit. *)
Definition no_digit_head (s : string) : Prop :=
  match s with
  | EmptyString => True
  | String c _ => digit c = None
  end.

(** At least one digit and no superfluous leading zero. *)
Definition canonical (d : Decimal.uint) : bool :=
  Decimal.uint_beq (Decimal.unorm d) d.

Definition parse_int (s : string) : option (Z * string) :=
  match s with
  | String "-" r =>
      let (d, rest) := read_uint r in
      if canonical d then Some (Z.of_int (Decimal.Neg d), rest) else None
  | _ =>
      let (d, rest) := read_uint s in
      if canonical d then Some (Z.of_int (Decimal.Pos d), rest) else None
  end.

(** The text that follows [word] at the head of [s], if [word] is there. *)
Fixpoint strip_prefix (word s : string) : option string :=
  match word with
  | EmptyString => Some s
  | String a w =>
      match s with
      | EmptyString => None
      | String b r => if Ascii.eqb a b then strip_prefix w r else None
      end
  end.

Definition expect (word : string) (v : pyval) (s : string)
  : option (pyval * string) :=
  match strip_prefix word s with
  | Some rest => Some (v, rest)
  | None => None
  end.

Fixpoint parse_value (fuel : nat) (s : string) : option (pyval * string) :=
  match fuel with
  | O => None
  | S fuel' =>
      match skip_ws s with
      | EmptyString => None
      | String c r =>
          if Ascii.eqb c "{" then
            match skip_ws r with
            | String "}" r' => Some (PyDict [], r')
            | _ =>
                match parse_members fuel' r with
                | Some (kvs, r') => Some (PyDict kvs, r')
                | None => None
                end
            end
          else if Ascii.eqb c "[" then
            match skip_ws r with
            | String "]" r' => Some (PyList [], r')
            | _ =>
                match parse_elements fuel' r with
                | Some (xs, r') => Some (PyList xs, r')
                | None => None
                end
            end
          else if Ascii.eqb c dquote then
            match parse_string r with
            | Some (str, r') => Some (PyStr str, r')
            | None => None
            end
          else if Ascii.eqb c "n" then expect "null" PyNone (String c r)
          else if Ascii.eqb c "t" then expect "true" (PyBool true) (String c r)
          else if Ascii.eqb c "f" then expect "false" (PyBool false) (String c r)
          else
            match parse_int (String c r) with
            | Some (n, r') => Some (PyInt n, r')
            | None => None
            end
      end
  end
with parse_members (fuel : nat) (s : string)
  : option (list (string * pyval) * string) :=
  match fuel with
  | O => None
  | S fuel' =>
      match skip_ws s with
      | String c r =>
          if Ascii.eqb c dquote then
            match parse_string r with
            | Some (k, r1) =>
                match skip_ws r1 with
                | String ":" r2 =>
                    match parse_value fuel' r2 with
                    | Some (x, r3) =>
                        match skip_ws r3 with
                        | String "," r4 =>
                            match parse_members fuel' r4 with
                            | Some (kvs, r5) => Some ((k, x) :: kvs, r5)
                            | None => None
                            end
                        | String "}" r4 => Some ([(k, x)], r4)
                        | _ => None
                        end
                    | None => None
                    end
                | _ => None
                end
            | None => None
            end
          else None
      | EmptyString => None
      end
  end
with parse_elements (fuel : nat) (s : string)
  : option (list pyval * string) :=
  match fuel with
  | O => None
  | S fuel' =>
      match parse_value fuel' s with
      | Some (x, r1) =>
          match skip_ws r1 with
          | String "," r2 =>
              match parse_elements fuel' r2 with
              | Some (xs, r3) => Some (x :: xs, r3)
              | None => None
              end
          | String "]" r2 => Some ([x], r2)
          | _ => None
          end
      | None => None
      end
  end.

(** [json.loads]: one value, surrounded by optional white space. *)
Definition loads (s : string) : option pyval :=
  match parse_value (S (String.length s)) s with
  | Some (v, rest) =>
      match skip_ws rest with
      | EmptyString => Some v
      | String _ _ => None
      end
  | None => None
  end.

(** The characters a number, and a value, can start with. *)
Definition num_start (c : ascii) : bool :=
  Ascii.eqb c "-" || match digit c with Some _ => true | None => false end.

Definition value_start (c : ascii) : bool :=
  num_start c || Ascii.eqb c "[" || Ascii.eqb c "{" || Ascii.eqb c dquote
  || Ascii.eqb c "n" || Ascii.eqb c "t" || Ascii.eqb c "f".

(** What the reader is shown to do on the text of a value. *)
Definition reads_back (v : pyval) : Prop :=
  forall fuel rest,
    no_digit_head rest ->
    (String.length (dumps v) <= fuel)%nat ->
    parse_value fuel (dumps v ++ rest) = Some (v, rest).

(** Characters [escape_char] leaves as they are: printable ASCII other than
    the double quote and the backslash. *)
Definition is_plain (c : ascii) : bool :=
  is_printable c && negb (Ascii.eqb c dquote) && negb (Ascii.eqb c backslash).

Fixpoint all_plain (s : string) : bool :=
  match s with
  | EmptyString => true
  | String c r => is_plain c && all_plain r
  end.

(** Expected texts are written with ['] standing for the double quote. *)
Fixpoint quoted (s : string) : string :=
  match s with
  | EmptyString => EmptyString
  | String c r => String (if Ascii.eqb c "'" then dquote else c) (quoted r)
  end.

(** Lookup in a [dict]. *)
Fixpoint dict_get (kvs : list (string * pyval)) (k : string) : option pyval :=
  match kvs with
  | [] => None
  | (k', v) :: rest => if String.eqb k' k then Some v else dict_get rest k
  end.

Definition keys (kvs : list (string * pyval)) : list string := map fst kvs.

End Json.

(** ** The script *)

Module Script.
Import Bytes Json.
Local Open Scope string_scope.

(** The exceptions [open] raises in this model. *)
Inductive exn : Type :=
| FileNotFoundError (path : string)
| IsADirectoryError (path : string).

(** An entry of the working directory. *)
Inductive node : Type :=
| File (content : list byte)
| Dir.

Inductive mode : Type := ReadBinary | WriteText.

(** What the script can observe and change: the entries of the working
    directory, the calls to [open] made so far (oldest first, failed ones
    included) and the lines printed. *)
Record world : Type := World {
  files : gmap string node;
  opened : list (string * mode);
  stdout : list string
}.

Inductive result (A : Type) : Type :=
| Ok (a : A)
| Raise (e : exn).
Arguments Ok {A} a.
Arguments Raise {A} e.

(** Computations that read and change the world and may raise. *)
Definition M (A : Type) : Type := world -> result A * world.

#[export] Instance M_ret : MRet M := fun A a w => (Ok a, w).
#[export] Instance M_bind : MBind M := fun A B k m w =>
  match m w with
  | (Ok a, w') => k a w'
  | (Raise e, w') => (Raise e, w')
  end.

Definition raise {A : Type} (e : exn) : M A := fun w => (Raise e, w).

Definition log_open (path : string) (m : mode) : M unit := fun w =>
  (Ok tt, World (files w) (opened w ++ [(path, m)]) (stdout w)).

(** The content of a regular file, as [open] in a reading mode followed
    by [read] finds it. *)
Definition fetch (path : string) : M (list byte) := fun w =>
  match files w !! path with
  | None => raise (FileNotFoundError path) w
  | Some Dir => raise (IsADirectoryError path) w
  | Some (File content) => (Ok content, w)
  end.

(** [with open(path, 'rb') as f: f.read()] *)
Definition read_binary (path : string) : M (list byte) :=
  log_open path ReadBinary;; fetch path.

(** Creation of a file, or its truncation when it exists. *)
Definition truncate (path : string) : M string := fun w =>
  match files w !! path with
  | Some Dir => raise (IsADirectoryError path) w
  | _ => (Ok path, World (<[path := File []]> (files w)) (opened w) (stdout w))
  end.

(** [open(path, 'w')]; the handle is the path. *)
Definition open_write (path : string) : M string :=
  log_open path WriteText;; truncate path.

(** [f.write(text)] on a handle opened for writing: the text goes after
    what the file holds.  The texts written here are printable ASCII
    ([output_text_printable] below), stored byte for character.  A handle
    that names no regular file cannot come out of [open_write]; writing to
    it changes nothing. *)
Definition write (f : string) (text : string) : M unit := fun w =>
  match files w !! f with
  | Some (File old) =>
      (Ok tt, World (<[f := File (old ++ encode text)]> (files w))
                    (opened w) (stdout w))
  | _ => (Ok tt, w)
  end.

(** [json.dump(obj, f)] *)
Definition json_dump (obj : pyval) (f : string) : M unit :=
  write f (dumps obj).

Definition print (line : string) : M unit := fun w =>
  (Ok tt, World (files w) (opened w) (stdout w ++ [line])).

Definition input_path : string := "test_file.txt".
Definition output_path : string := "upload_request.json".

Definition file_hash (content : list byte) : string :=
  SHA256.hexdigest content.

Definition file_size (content : list byte) : Z :=
  Z.of_nat (length content).

Definition file_content_b64 (content : list byte) : string :=
  decode (Base64.b64encode content).

Definition data (content : list byte) : list (string * pyval) :=
  [ ("filename", PyStr "test_file.txt");
    ("content_hash", PyStr (file_hash content));
    ("size_bytes", PyInt (file_size content));
    ("mime_type", PyStr "text/plain");
    ("encrypted_key", PyStr "dGVzdGtleQ==");
    ("file_data", PyStr (file_content_b64 content)) ].

Definition query : string :=
  "mutation UploadFileFromMap($input: UploadFileFromMapInput!) { uploadFileFromMap(input: $input) { id filename mime_type file { size_bytes } } }".

Definition request (content : list byte) : pyval :=
  PyDict
    [ ("query", PyStr query);
      ("variables",
       PyDict [ ("input",
                 PyDict [ ("data", PyStr (dumps (PyDict (data content)))) ]) ]) ].

(** The whole script. *)
Definition main : M unit :=
  content ← read_binary "test_file.txt";
  f ← open_write "upload_request.json";
  json_dump (request content) f;;
  print "Request created successfully".

(** The world a run of the script leaves behind. *)
Definition run (w : world) : world := snd (main w).

(** The text the script writes for a given input. *)
Definition output_text (content : list byte) : string :=
  dumps (request content).

(** What a reader of the output file gets: the document, parsed. *)
Definition written_request (w : world) : option pyval :=
  match files w !! output_path with
  | Some (File bs) => loads (decode bs)
  | _ => None
  end.

(** The text stored under [variables.input.data] of a request document. *)
Definition data_text (doc : pyval) : option string :=
  match doc with
  | PyDict top =>
      match dict_get top "variables" with
      | Some (PyDict vars) =>
          match dict_get vars "input" with
          | Some (PyDict inp) =>
              match dict_get inp "data" with
              | Some (PyStr text) => Some text
              | _ => None
              end
          | _ => None
          end
      | _ => None
      end
  | _ => None
  end.

(** The metadata dictionary recovered from the output file: the text under
    [variables.input.data], parsed in its turn. *)
Definition written_metadata (w : world) : option (list (string * pyval)) :=
  match written_request w with
  | Some doc =>
      match data_text doc with
      | Some text =>
          match loads text with
          | Some (PyDict md) => Some md
          | _ => None
          end
      | None => None
      end
  | None => None
  end.

Definition is_directory (w : world) (path : string) : bool :=
  match files w !! path with
  | Some Dir => true
  | _ => false
  end.

(** A world in which the script can run to its end on the content [B]:
    the input path holds a regular file with content [B], and the output
    path is not a directory. *)
Definition ready (w : world) (B : list byte) : Prop :=
  files w !! input_path = Some (File B)
  /\ is_directory w output_path = false.

(** The directory holding only the input file, nothing opened or printed. *)
Definition world_with (B : list byte) : world :=
  World {[ input_path := File B ]} [] [].

Definition hello : list byte := encode "hello".

End Script.

(** * Checks of the model against known values *)

Example round_constants_ends :
  (nth 0 SHA256.K 0 = 0x428a2f98 /\ nth 63 SHA256.K 0 = 0xc67178f2
   /\ length SHA256.K = 64%nat)
  /\ SHA256.sa SHA256.initial = 0x6a09e667
  /\ SHA256.sh SHA256.initial = 0x5be0cd19.
Proof. repeat split. Qed.

Example sha_empty :
  SHA256.hexdigest [] =
  "e3b0c44298fc1c149afbf4c8996fb92427ae41e4649b934ca495991b7852b855"%string.
Proof. vm_compute. reflexivity. Qed.

Example sha_abc :
  SHA256.hexdigest (Bytes.encode "abc") =
  "ba7816bf8f01cfea414140de5dae2223b00361a396177a9cb410ff61f20015ad"%string.
Proof. vm_compute. reflexivity. Qed.

Example sha_two_blocks :
  SHA256.hexdigest
    (Bytes.encode "abcdbcdecdefdefgefghfghighijhijkijkljklmklmnlmnomnopnopq") =
  "248d6a61d20638b8e5c026930c3e6039a33ce45964ff2167f6ecedd419db06c1"%string.
Proof. vm_compute. reflexivity. Qed.

Example sha_block_boundaries :
  map (fun n => SHA256.hexdigest (repeat "a"%byte n)) [55; 56; 64; 119]%nat =
  [ "9f4390f8d30c2dd92ec9f095b65e2b9ae9b0a925a5258e241c9f1e910f734318";
    "b35439a4ac6f0948b6d6f9e3c6af0f5f590ce20f1bde7090ef7970686ec6738a";
    "ffe054fe7ae0cb6dc65c3af9b61d5209f439851db43d0ba5997337df154668eb";
    "31eba51c313a5c08226adf18d4a359cfdfd8d2e816b13f4af952f7ea6584dcfb"
  ]%string.
Proof. vm_compute. reflexivity. Qed.

Example sha_every_byte :
  SHA256.hexdigest (map (fun n => Bytes.Z_to_byte (Z.of_nat n)) (seq 0 256)) =
  "40aff2e9d2d8922e47afd4648e6967497158785fbd1da870e7110266bf944880"%string.
Proof. vm_compute. reflexivity. Qed.

Example b64_hello :
  Bytes.decode (Base64.b64encode (Bytes.encode "hello")) = "aGVsbG8="%string.
Proof. vm_compute. reflexivity. Qed.

Example b64_foobar :
  map (fun s => Bytes.decode (Base64.b64encode (Bytes.encode s)))
      ["f"; "fo"; "foo"; "foob"; "fooba"; "foobar"]%string
  = ["Zg=="; "Zm8="; "Zm9v"; "Zm9vYg=="; "Zm9vYmE="; "Zm9vYmFy"]%string.
Proof. vm_compute. reflexivity. Qed.

Example b64_dec_foobar :
  map Base64.b64decode ["Zg=="; "Zm8="; "Zm9v"; "Zm9vYg=="; "Zm9vYmE="; "Zm9vYmFy"; "Zm9"; "Z==="]%string
  = map (fun s => Some (Bytes.encode s)) ["f"; "fo"; "foo"; "foob"; "fooba"; "foobar"]%string ++ [None; None].
Proof. vm_compute. reflexivity. Qed.

Example b64_high :
  Bytes.decode (Base64.b64encode [xff; xfe; xfb; xef; xbe]) = "//77774="%string.
Proof. vm_compute. reflexivity. Qed.

Example dumps_sample :
  Json.dumps (Json.PyDict
    [("a", Json.PyStr (Json.quoted "x'y\z" ++ String "010" (String "127" (String "031" (String "233" "/")))));
     ("b", Json.PyInt (-5)); ("c", Json.PyDict []); ("d", Json.PyList []);
     ("e", Json.PyList [Json.PyInt 1; Json.PyNone; Json.PyBool true]);
     ("f", Json.PyDict [("k", Json.PyInt 0)])]%string)
  = Json.quoted
      "{'a': 'x\'y\\z\n\u007f\u001f\u00e9/', 'b': -5, 'c': {}, 'd': [], 'e': [1, null, true], 'f': {'k': 0}}".
Proof. vm_compute. reflexivity. Qed.

Example loads_sample :
  let v := Json.PyDict
    [("a", Json.PyStr (String "x" (String Json.dquote (String "y" (String Json.backslash
             (String "z" (String "010" (String "127" (String "031" (String "233" "/"))))))))));
     ("b", Json.PyInt (-5)); ("c", Json.PyDict []); ("d", Json.PyList []);
     ("e", Json.PyList [Json.PyInt 1; Json.PyNone; Json.PyBool true]);
     ("f", Json.PyDict [("k", Json.PyInt 0)])]%string in
  Json.loads (Json.dumps v) = Some v.
Proof. vm_compute. reflexivity. Qed.

Example loads_bad :
  map Json.loads ["01"; "1.5"; "{"; "[1,]"; "tru"; "-"; "1 2"; " [ 1 , 2 ] "; "-0"; "nullx"]%string
  = [None; None; None; None; None; None; None;
     Some (Json.PyList [Json.PyInt 1; Json.PyInt 2]); Some (Json.PyInt 0); None].
Proof. vm_compute. reflexivity. Qed.

Example output_text_hello :
  Script.output_text Script.hello =
  Json.quoted
    "{'query': 'mutation UploadFileFromMap($input: UploadFileFromMapInput!) { uploadFileFromMap(input: $input) { id filename mime_type file { size_bytes } } }', 'variables': {'input': {'data': '{\'filename\': \'test_file.txt\', \'content_hash\': \'2cf24dba5fb0a30e26e83b2ac5b9e29e1b161e5c1fa7425e73043362938b9824\', \'size_bytes\': 5, \'mime_type\': \'text/plain\', \'encrypted_key\': \'dGVzdGtleQ==\', \'file_data\': \'aGVsbG8=\'}'}}}".
Proof. vm_compute. reflexivity. Qed.

Example run_hello :
  Script.main (Script.world_with Script.hello) =
  (Script.Ok tt,
   Script.World
     {[ Script.input_path := Script.File Script.hello;
        Script.output_path :=
          Script.File (Bytes.encode (Script.output_text Script.hello)) ]}
     [(Script.input_path, Script.ReadBinary);
      (Script.output_path, Script.WriteText)]
     ["Request created successfully"%string]).
Proof. vm_compute. reflexivity. Qed.

Example run_missing :
  Script.main (Script.World ∅ [] []) =
  (Script.Raise (Script.FileNotFoundError "test_file.txt"),
   Script.World ∅ [("test_file.txt"%string, Script.ReadBinary)] []).
Proof. vm_compute. reflexivity. Qed.

Example run_output_is_directory :
  Script.main
    (Script.World {[ Script.input_path := Script.File Script.hello;
                     Script.output_path := Script.Dir ]} [] []) =
  (Script.Raise (Script.IsADirectoryError "upload_request.json"),
   Script.World {[ Script.input_path := Script.File Script.hello;
                   Script.output_path := Script.Dir ]}
     [(Script.input_path, Script.ReadBinary);
      (Script.output_path, Script.WriteText)] []).
Proof. vm_compute. reflexivity. Qed.

(** * Facts about the building blocks *)

Module BytesFacts.
Import Bytes.

Lemma byte_to_Z_range (b : byte) : 0 <= byte_to_Z b < 256.
Proof.
  unfold byte_to_Z. pose proof (Byte.to_N_bounded b) as H.
  lia.
Qed.

Lemma Z_to_byte_to_Z (b : byte) : Z_to_byte (byte_to_Z b) = b.
Proof.
  unfold Z_to_byte. pose proof (byte_to_Z_range b) as H.
  rewrite Z.mod_small by lia. unfold byte_to_Z.
  rewrite N2Z.id, Byte.of_to_N. reflexivity.
Qed.

Lemma decode_encode (s : string) : decode (encode s) = s.
Proof. apply string_of_list_byte_of_string. Qed.

Lemma encode_decode (bs : list byte) : encode (decode bs) = bs.
Proof. apply list_byte_of_string_of_list_byte. Qed.

Lemma length_decode (bs : list byte) : String.length (decode bs) = length bs.
Proof.
  unfold decode, string_of_list_byte.
  induction bs as [|b bs IH]; simpl; [reflexivity|].
  now rewrite IH.
Qed.

End BytesFacts.

Module SHA256Facts.
Import Bytes SHA256.

Lemma hex_byte_lower (b : byte) : forallb is_lower_hex (hex_byte b) = true.
Proof. destruct b; reflexivity. Qed.

Lemma hex_lower (bs : list byte) :
  forallb is_lower_hex (list_ascii_of_string (hex bs)) = true.
Proof.
  unfold hex. rewrite list_ascii_of_string_of_list_ascii.
  induction bs as [|b bs IH]; [reflexivity|].
  cbn [flat_map]. rewrite forallb_app, IH, hex_byte_lower. reflexivity.
Qed.

Lemma length_hex (bs : list byte) :
  String.length (hex bs) = (2 * length bs)%nat.
Proof.
  unfold hex. induction bs as [|b bs IH]; [reflexivity|].
  cbn [flat_map hex_byte app string_of_list_ascii String.length length].
  rewrite IH. lia.
Qed.

Lemma length_be_bytes (n : nat) (x : Z) : length (be_bytes n x) = n.
Proof. induction n as [|n IH]; simpl; [reflexivity|]. now rewrite IH. Qed.

Lemma length_digest (msg : list byte) : length (digest msg) = 32%nat.
Proof.
  unfold digest. rewrite length_map.
  unfold state_words. cbn [flat_map].
  rewrite !length_app, !length_be_bytes. reflexivity.
Qed.

Lemma length_hexdigest (msg : list byte) :
  String.length (hexdigest msg) = 64%nat.
Proof. unfold hexdigest. rewrite length_hex, length_digest. reflexivity. Qed.

Lemma hexdigest_lower (msg : list byte) :
  forallb is_lower_hex (list_ascii_of_string (hexdigest msg)) = true.
Proof. apply hex_lower. Qed.

End SHA256Facts.

Module Base64Facts.
Import Bytes BytesFacts Base64.

(** Linear arithmetic with division and remainder by constants. *)
Ltac divlia :=
  change (2 ^ 2) with 4 in *; change (2 ^ 4) with 16 in *;
  change (2 ^ 6) with 64 in *;
  Z.to_euclidean_division_equations; lia.

(** Bitwise "or" of a shifted value and a value that fits below it. *)
Lemma lor_shiftl_add (n x y : Z) :
  0 <= n -> 0 <= y < 2 ^ n -> Z.lor (Z.shiftl x n) y = x * 2 ^ n + y.
Proof.
  intros Hn Hy.
  rewrite <- Z.shiftl_mul_pow2 by assumption.
  assert (Hdisj : Z.land (Z.shiftl x n) y = 0).
  { apply Z.bits_inj'. intros m Hm.
    rewrite Z.land_spec, Z.bits_0.
    destruct (Z.lt_ge_cases m n) as [Hlt|Hge].
    - rewrite Z.shiftl_spec_low by assumption. reflexivity.
    - replace y with (y mod 2 ^ n) by (apply Z.mod_small; assumption).
      rewrite Z.mod_pow2_bits_high by lia. apply andb_false_r. }
  rewrite Z.add_nocarry_lxor by assumption.
  symmetry. apply Z.lxor_lor. assumption.
Qed.

Lemma land_3 (x : Z) : Z.land x 0x3 = x mod 4.
Proof. change 0x3 with (Z.ones 2). now rewrite Z.land_ones by lia. Qed.

Lemma land_15 (x : Z) : Z.land x 0xf = x mod 16.
Proof. change 0xf with (Z.ones 4). now rewrite Z.land_ones by lia. Qed.

Lemma land_63 (x : Z) : Z.land x 0x3f = x mod 64.
Proof. change 0x3f with (Z.ones 6). now rewrite Z.land_ones by lia. Qed.

Lemma sextet1_eq (a : Z) : sextet1 a = a / 4.
Proof. unfold sextet1. now rewrite Z.shiftr_div_pow2 by lia. Qed.

Lemma sextet2_eq (a b : Z) :
  0 <= b < 256 -> sextet2 a b = (a mod 4) * 16 + b / 16.
Proof.
  intros Hb. unfold sextet2.
  rewrite land_3, (Z.shiftr_div_pow2 b 4) by lia.
  rewrite lor_shiftl_add; [reflexivity | lia |].
  divlia.
Qed.

Lemma sextet3_eq (b c : Z) :
  0 <= c < 256 -> sextet3 b c = (b mod 16) * 4 + c / 64.
Proof.
  intros Hc. unfold sextet3.
  rewrite land_15, (Z.shiftr_div_pow2 c 6) by lia.
  rewrite lor_shiftl_add; [reflexivity | lia |].
  divlia.
Qed.

Lemma sextet4_eq (c : Z) : sextet4 c = c mod 64.
Proof. apply land_63. Qed.

Lemma b64_value_char (n : Z) :
  0 <= n < 64 -> b64_value (b64_char n) = Some n.
Proof.
  intros Hn. rewrite <- (Z2Nat.id n) by lia.
  assert (Hk : (Z.to_nat n < 64)%nat) by lia.
  revert Hk. generalize (Z.to_nat n) as k. clear n Hn.
  intros k Hk.
  do 64 (destruct k as [|k]; [reflexivity|]). lia.
Qed.

Lemma b64_value_pad : b64_value pad_char = None.
Proof. reflexivity. Qed.

Lemma is_pad_pad : is_pad pad_char = true.
Proof. reflexivity. Qed.

Lemma octet1_sextets (a b : Z) :
  0 <= a < 256 -> 0 <= b < 256 ->
  octet1 (sextet1 a) (sextet2 a b) = Z_to_byte a.
Proof.
  intros Ha Hb. unfold octet1. f_equal.
  rewrite sextet1_eq, sextet2_eq by assumption.
  rewrite Z.shiftr_div_pow2 by lia.
  rewrite lor_shiftl_add by divlia.
  divlia.
Qed.

Lemma octet2_sextets (a b c : Z) :
  0 <= b < 256 -> 0 <= c < 256 ->
  octet2 (sextet2 a b) (sextet3 b c) = Z_to_byte b.
Proof.
  intros Hb Hc. unfold octet2. f_equal.
  rewrite sextet2_eq, sextet3_eq by assumption.
  rewrite land_15, Z.shiftr_div_pow2 by lia.
  rewrite lor_shiftl_add by divlia.
  divlia.
Qed.

Lemma octet3_sextets (b c : Z) :
  0 <= c < 256 ->
  octet3 (sextet3 b c) (sextet4 c) = Z_to_byte c.
Proof.
  intros Hc. unfold octet3. f_equal.
  rewrite sextet3_eq, sextet4_eq by assumption.
  rewrite land_3.
  rewrite lor_shiftl_add by divlia.
  divlia.
Qed.

Lemma sextet1_range (a : Z) : 0 <= a < 256 -> 0 <= sextet1 a < 64.
Proof. intros. rewrite sextet1_eq. divlia. Qed.

Lemma sextet2_range (a b : Z) : 0 <= b < 256 -> 0 <= sextet2 a b < 64.
Proof. intros. rewrite sextet2_eq by assumption. divlia. Qed.

Lemma sextet3_range (b c : Z) : 0 <= c < 256 -> 0 <= sextet3 b c < 64.
Proof. intros. rewrite sextet3_eq by assumption. divlia. Qed.

Lemma sextet4_range (c : Z) : 0 <= sextet4 c < 64.
Proof. rewrite sextet4_eq. divlia. Qed.

(** Induction on lists three elements at a time. *)
Lemma list_ind_by3 {A : Type} (P : list A -> Prop) :
  P [] ->
  (forall a, P [a]) ->
  (forall a b, P [a; b]) ->
  (forall a b c l, P l -> P (a :: b :: c :: l)) ->
  forall l, P l.
Proof.
  intros H0 H1 H2 H3 l.
  enough (H : P l /\ (forall a, P (a :: l)) /\ (forall a b, P (a :: b :: l)))
    by apply H.
  induction l as [|x l (IH0 & IH1 & IH2)].
  - repeat split; auto.
  - repeat split; auto.
Qed.

(** Decoding undoes encoding. *)
Theorem b64decode_bytes_b64encode (bs : list byte) :
  b64decode_bytes (b64encode bs) = Some bs.
Proof.
  induction bs as [|a|a b|a b c bs IH] using list_ind_by3.
  - reflexivity.
  - pose proof (byte_to_Z_range a) as Ha.
    cbn [b64encode b64decode_bytes].
    rewrite (b64_value_char (sextet1 _)) by (apply sextet1_range; assumption).
    rewrite (b64_value_char (sextet2 _ _)) by (apply sextet2_range; lia).
    rewrite b64_value_pad, is_pad_pad. cbn [andb].
    rewrite octet1_sextets by lia.
    now rewrite Z_to_byte_to_Z.
  - pose proof (byte_to_Z_range a) as Ha.
    pose proof (byte_to_Z_range b) as Hb.
    cbn [b64encode b64decode_bytes].
    rewrite (b64_value_char (sextet1 _)) by (apply sextet1_range; assumption).
    rewrite (b64_value_char (sextet2 _ _)) by (apply sextet2_range; lia).
    rewrite (b64_value_char (sextet3 _ _)) by (apply sextet3_range; lia).
    rewrite b64_value_pad, is_pad_pad.
    rewrite octet1_sextets, octet2_sextets by lia.
    now rewrite !Z_to_byte_to_Z.
  - pose proof (byte_to_Z_range a) as Ha.
    pose proof (byte_to_Z_range b) as Hb.
    pose proof (byte_to_Z_range c) as Hc.
    cbn [b64encode b64decode_bytes].
    rewrite (b64_value_char (sextet1 _)) by (apply sextet1_range; assumption).
    rewrite (b64_value_char (sextet2 _ _)) by (apply sextet2_range; lia).
    rewrite (b64_value_char (sextet3 _ _)) by (apply sextet3_range; lia).
    rewrite (b64_value_char (sextet4 _)) by apply sextet4_range.
    rewrite IH.
    rewrite octet1_sextets, octet2_sextets, octet3_sextets by lia.
    now rewrite !Z_to_byte_to_Z.
Qed.

Theorem b64decode_b64encode (bs : list byte) :
  b64decode (decode (b64encode bs)) = Some bs.
Proof.
  unfold b64decode. rewrite encode_decode. apply b64decode_bytes_b64encode.
Qed.

Lemma b64_char_ascii (n : Z) :
  0 <= n < 64 -> byte_to_Z (b64_char n) < 128.
Proof.
  intros Hn. rewrite <- (Z2Nat.id n) by lia.
  assert (Hk : (Z.to_nat n < 64)%nat) by lia.
  revert Hk. generalize (Z.to_nat n) as k. clear n Hn.
  intros k Hk.
  do 64 (destruct k as [|k]; [reflexivity|]). lia.
Qed.

(** The encoder emits ASCII only, so [bytes.decode()] cannot fail on it. *)
Lemma b64encode_ascii (bs : list byte) :
  Forall (fun c => byte_to_Z c < 128) (b64encode bs).
Proof.
  induction bs as [|a|a b|a b c bs IH] using list_ind_by3.
  - constructor.
  - pose proof (byte_to_Z_range a).
    cbn [b64encode].
    repeat (constructor;
            [first [ reflexivity
                   | apply b64_char_ascii;
                     first [ apply sextet1_range | apply sextet2_range ]; lia ]|]).
    constructor.
  - pose proof (byte_to_Z_range a). pose proof (byte_to_Z_range b).
    cbn [b64encode].
    repeat (constructor;
            [first [ reflexivity
                   | apply b64_char_ascii;
                     first [ apply sextet1_range | apply sextet2_range
                           | apply sextet3_range ]; lia ]|]).
    constructor.
  - pose proof (byte_to_Z_range a). pose proof (byte_to_Z_range b).
    pose proof (byte_to_Z_range c).
    cbn [b64encode].
    repeat (constructor;
            [apply b64_char_ascii;
             first [ apply sextet1_range | apply sextet2_range
                   | apply sextet3_range | apply sextet4_range ]; lia |]).
    exact IH.
Qed.

End Base64Facts.

Module JsonFacts.
Import Bytes BytesFacts Json.
Local Open Scope string_scope.
#[local] Arguments String.append !s1 s2 : simpl nomatch.

Lemma append_assoc (a b c : string) : (a ++ b) ++ c = a ++ (b ++ c).
Proof. induction a as [|x a IH]; simpl; [reflexivity|]. now rewrite IH. Qed.

Lemma append_nil_r (a : string) : a ++ EmptyString = a.
Proof. induction a as [|x a IH]; simpl; [reflexivity|]. now rewrite IH. Qed.

Lemma length_append (a b : string) :
  String.length (a ++ b) = (String.length a + String.length b)%nat.
Proof. induction a as [|x a IH]; simpl; [reflexivity|]. now rewrite IH. Qed.

(** *** String literals *)

Lemma parse_string_escape_char (c : ascii) (tl : string) :
  parse_string (escape_char c ++ tl) = prepend c (parse_string tl).
Proof.
  destruct c as [[|] [|] [|] [|] [|] [|] [|] [|]]; reflexivity.
Qed.

Lemma parse_string_escape (s rest : string) :
  parse_string (escape s ++ String dquote rest) = Some (s, rest).
Proof.
  induction s as [|c s IH].
  - reflexivity.
  - cbn [escape]. rewrite append_assoc, parse_string_escape_char, IH.
    reflexivity.
Qed.

Lemma parse_string_literal (s rest : string) :
  exists tl, encode_basestring_ascii s ++ rest = String dquote tl
             /\ parse_string tl = Some (s, rest).
Proof.
  exists (escape s ++ String dquote rest). split.
  - unfold encode_basestring_ascii, chr. cbn [append].
    now rewrite append_assoc.
  - apply parse_string_escape.
Qed.

(** *** Integers *)

Lemma read_uint_no_digit (rest : string) :
  no_digit_head rest -> read_uint rest = (Decimal.Nil, rest).
Proof.
  destruct rest as [|c r]; [reflexivity|].
  cbn [no_digit_head read_uint]. now intros ->.
Qed.

Lemma read_uint_string_of_uint (d : Decimal.uint) (rest : string) :
  no_digit_head rest ->
  read_uint (NilEmpty.string_of_uint d ++ rest) = (d, rest).
Proof.
  intros Hrest.
  induction d as [|d IH|d IH|d IH|d IH|d IH|d IH|d IH|d IH|d IH|d IH];
    cbn [NilEmpty.string_of_uint append];
    [ now apply read_uint_no_digit | .. ];
    cbn [read_uint]; match goal with
    | |- context [digit ?c] =>
        let v := eval vm_compute in (digit c) in change (digit c) with v
    end; cbv iota; now rewrite IH.
Qed.

Lemma canonical_to_uint (p : positive) : canonical (Pos.to_uint p) = true.
Proof.
  unfold canonical. apply Decimal.internal_uint_dec_lb.
  rewrite <- DecimalPos.Unsigned.to_of, DecimalPos.Unsigned.of_to.
  reflexivity.
Qed.

Lemma parse_int_repr (n : Z) (rest : string) :
  no_digit_head rest -> parse_int (int_repr n ++ rest) = Some (n, rest).
Proof.
  intros Hrest. unfold int_repr.
  rewrite <- (DecimalZ.of_to n) at 2.
  destruct n as [|p|p]; cbn [Z.to_int NilEmpty.string_of_int].
  - cbn [NilEmpty.string_of_uint append parse_int].
    change (String "0" rest) with (NilEmpty.string_of_uint (Decimal.D0 Decimal.Nil) ++ rest).
    rewrite read_uint_string_of_uint by assumption. reflexivity.
  - pose proof (DecimalPos.Unsigned.to_uint_nonnil p) as Hnil.
    assert (Hhead : forall c r,
               NilEmpty.string_of_uint (Pos.to_uint p) ++ rest = String c r ->
               parse_int (String c r) =
               let (d, rest') := read_uint (String c r) in
               if canonical d then Some (Z.of_int (Decimal.Pos d), rest') else None).
    { intros c r Heq. destruct (Pos.to_uint p); try congruence;
        cbn [NilEmpty.string_of_uint append] in Heq; injection Heq as <- <-;
        reflexivity. }
    destruct (NilEmpty.string_of_uint (Pos.to_uint p) ++ rest) as [|c r] eqn:Heq.
    + destruct (Pos.to_uint p); try congruence; discriminate Heq.
    + rewrite (Hhead c r eq_refl), <- Heq.
      rewrite read_uint_string_of_uint by assumption.
      now rewrite canonical_to_uint.
  - cbn [append parse_int].
    rewrite read_uint_string_of_uint by assumption.
    now rewrite canonical_to_uint.
Qed.

(** *** Values *)

Lemma dumps_list (xs : list pyval) :
  dumps (PyList xs) = "[" ++ String.concat ", " (map dumps xs) ++ "]".
Proof. reflexivity. Qed.

Lemma dumps_dict (kvs : list (string * pyval)) :
  dumps (PyDict kvs) = "{" ++ String.concat ", " (map item kvs) ++ "}".
Proof. reflexivity. Qed.

Lemma parse_value_space (fuel : nat) (s : string) :
  parse_value fuel (String " " s) = parse_value fuel s.
Proof. destruct fuel; reflexivity. Qed.

Lemma parse_members_space (fuel : nat) (s : string) :
  parse_members fuel (String " " s) = parse_members fuel s.
Proof. destruct fuel; reflexivity. Qed.

Lemma parse_elements_space (fuel : nat) (s : string) :
  parse_elements fuel (String " " s) = parse_elements fuel s.
Proof.
  destruct fuel; [reflexivity|]. simpl. now rewrite parse_value_space.
Qed.

Lemma concat_cons2 (sep x y : string) (l : list string) :
  String.concat sep (x :: y :: l) = x ++ sep ++ String.concat sep (y :: l).
Proof. reflexivity. Qed.

Lemma reads_back_elements (xs : list pyval) :
  Forall reads_back xs -> xs <> [] ->
  forall fuel rest,
    (String.length (String.concat ", " (map dumps xs)) < fuel)%nat ->
    parse_elements fuel (String.concat ", " (map dumps xs) ++ String "]" rest)
    = Some (xs, rest).
Proof.
  induction 1 as [|x xs Hx Hxs IH]; [congruence|]. intros _ fuel rest Hfuel.
  destruct fuel as [|fuel]; [lia|].
  destruct xs as [|y ys].
  - cbn [map String.concat] in *.
    cbn [parse_elements]. rewrite Hx by (cbn; auto; lia). reflexivity.
  - cbn [map] in *. rewrite concat_cons2 in *.
    rewrite !length_append in Hfuel. rewrite !append_assoc.
    cbn [parse_elements]. rewrite Hx by (cbn; auto; lia).
    cbn [append skip_ws is_ws]. simpl.
    rewrite parse_elements_space, IH; [reflexivity|congruence|].
    cbn [String.length] in Hfuel. lia.
Qed.

Lemma length_dumps_pos (v : pyval) : (1 <= String.length (dumps v))%nat.
Proof.
  destruct v as [|[|]|n|s|xs|kvs]; cbn; try lia.
  unfold int_repr. destruct n as [|p|p]; cbn; try lia.
  pose proof (DecimalPos.Unsigned.to_uint_nonnil p).
  destruct (Pos.to_uint p); cbn; try lia; congruence.
Qed.

Lemma reads_back_members (kvs : list (string * pyval)) :
  Forall (fun kv => reads_back (snd kv)) kvs -> kvs <> [] ->
  forall fuel rest,
    (String.length (String.concat ", " (map item kvs)) < fuel)%nat ->
    parse_members fuel (String.concat ", " (map item kvs) ++ String "}" rest)
    = Some (kvs, rest).
Proof.
  induction 1 as [|[k x] kvs Hx Hkvs IH]; [congruence|].
  intros _ fuel rest Hfuel.
  destruct fuel as [|fuel]; [lia|].
  cbn [snd] in Hx.
  assert (Hitem : forall tl,
            (String.length (item (k, x)) <= fuel)%nat ->
            no_digit_head tl ->
            exists body,
              item (k, x) ++ tl = String dquote body /\
              parse_string body = Some (k, String ":" (String " " (dumps x ++ tl))) /\
              parse_value fuel (dumps x ++ tl) = Some (x, tl)).
  { intros tl Hlen Htl.
    destruct (parse_string_literal k (": " ++ dumps x ++ tl)) as (body & Hb & Hp).
    exists body. repeat split.
    - unfold item. rewrite <- Hb. now rewrite !append_assoc.
    - exact Hp.
    - apply Hx; [assumption|].
      unfold item in Hlen. rewrite !length_append in Hlen. lia. }
  destruct kvs as [|kv kvs'].
  - cbn [map String.concat] in *.
    destruct (Hitem (String "}" rest)) as (body & -> & Hp & Hv); [lia|reflexivity|].
    cbn [parse_members skip_ws is_ws]. simpl. rewrite Hp. simpl.
    rewrite parse_value_space, Hv. reflexivity.
  - cbn [map] in *. rewrite concat_cons2 in *.
    rewrite !length_append in Hfuel. rewrite !append_assoc.
    change (", " ++ ?a) with (String "," (String " " a)).
    specialize (IH ltac:(congruence) fuel rest ltac:(cbn [String.length] in Hfuel; lia)).
    set (tail := String.concat ", " (item kv :: map item kvs') ++ String "}" rest) in *.
    destruct (Hitem (String "," (String " " tail)))
      as (body & -> & Hp & Hv); [lia|reflexivity|].
    simpl. rewrite Hp. simpl.
    rewrite parse_value_space, Hv. simpl.
    rewrite parse_members_space, IH. reflexivity.
Qed.


Lemma parse_value_num (fuel : nat) (c : ascii) (r : string) :
  num_start c = true ->
  parse_value (S fuel) (String c r) =
  match parse_int (String c r) with
  | Some (n, r') => Some (PyInt n, r')
  | None => None
  end.
Proof.
  destruct c as [[|] [|] [|] [|] [|] [|] [|] [|]];
    intros H; try discriminate H; reflexivity.
Qed.

Lemma int_repr_head (n : Z) (rest : string) :
  exists c r, int_repr n ++ rest = String c r /\ num_start c = true.
Proof.
  unfold int_repr. destruct n as [|p|p]; cbn [Z.to_int NilEmpty.string_of_int].
  - eexists _, _. split; reflexivity.
  - pose proof (DecimalPos.Unsigned.to_uint_nonnil p) as Hnil.
    destruct (Pos.to_uint p); try congruence;
      eexists _, _; split; reflexivity.
  - eexists _, _. split; reflexivity.
Qed.


Lemma parse_value_list (fuel : nat) (c : ascii) (r : string) :
  value_start c = true ->
  parse_value (S fuel) (String "[" (String c r)) =
  match parse_elements fuel (String c r) with
  | Some (xs, r') => Some (PyList xs, r')
  | None => None
  end.
Proof.
  destruct c as [[|] [|] [|] [|] [|] [|] [|] [|]];
    intros H; try discriminate H; reflexivity.
Qed.

Lemma dumps_head (v : pyval) (rest : string) :
  exists c r, dumps v ++ rest = String c r /\ value_start c = true.
Proof.
  destruct v as [|[|]|n|s|xs|kvs];
    try (eexists _, _; split; reflexivity).
  destruct (int_repr_head n rest) as (c & r & Heq & Hc).
  exists c, r. split; [exact Heq|]. unfold value_start. now rewrite Hc.
Qed.

Lemma elements_head (x : pyval) (xs : list pyval) (rest : string) :
  exists c r,
    String.concat ", " (map dumps (x :: xs)) ++ rest = String c r
    /\ value_start c = true.
Proof.
  destruct xs as [|y ys].
  - apply dumps_head.
  - cbn [map]. rewrite concat_cons2, append_assoc. apply dumps_head.
Qed.

Theorem parse_value_dumps (v : pyval) : reads_back v.
Proof.
  induction v as [|b|n|s|xs IH|kvs IH] using pyval_nested_ind;
    intros fuel rest Hrest Hfuel;
    (destruct fuel as [|fuel];
     [match type of Hfuel with
      | (String.length (dumps ?v) <= _)%nat =>
          pose proof (length_dumps_pos v); lia
      end|]).
  - reflexivity.
  - destruct b; reflexivity.
  - cbn [dumps].
    destruct (int_repr_head n rest) as (c & r & Heq & Hc).
    rewrite Heq, (parse_value_num _ _ _ Hc), <- Heq.
    now rewrite parse_int_repr.
  - destruct (parse_string_literal s rest) as (body & Hb & Hp).
    cbn [dumps]. rewrite Hb. simpl. rewrite Hp. reflexivity.
  - rewrite dumps_list in *. destruct xs as [|x xs]; [reflexivity|].
    rewrite !append_assoc.
    change ("[" ++ ?a) with (String "[" a) in *.
    change ("]" ++ ?a) with (String "]" a) in *.
    cbn [String.length] in Hfuel. rewrite length_append in Hfuel.
    cbn [String.length] in Hfuel.
    pose proof (reads_back_elements (x :: xs) IH ltac:(congruence) fuel rest
                  ltac:(lia)) as He.
    destruct (elements_head x xs (String "]" rest)) as (c & r & Heq & Hc).
    rewrite Heq in *. rewrite (parse_value_list _ _ _ Hc), He. reflexivity.
  - rewrite dumps_dict in *. destruct kvs as [|[k x] kvs]; [reflexivity|].
    rewrite !append_assoc.
    change ("{" ++ ?a) with (String "{" a) in *.
    change ("}" ++ ?a) with (String "}" a) in *.
    cbn [String.length] in Hfuel. rewrite length_append in Hfuel.
    cbn [String.length] in Hfuel.
    pose proof (reads_back_members ((k, x) :: kvs) IH ltac:(congruence) fuel rest
                  ltac:(lia)) as He.
    assert (Hhead : exists body,
               String.concat ", " (map item ((k, x) :: kvs)) ++ String "}" rest
               = String dquote body).
    { destruct kvs as [|kv kvs]; cbn [map]; [|rewrite concat_cons2];
        unfold item at 1, encode_basestring_ascii; eexists; reflexivity. }
    destruct Hhead as (body & Heq). rewrite Heq in *.
    cbn [parse_value]. simpl. simpl in He. rewrite He. reflexivity.
Qed.

(** *** The text of a value is printable ASCII

    With [ensure_ascii] every character [json.dumps] emits lies between
    32 and 126: the text has the same bytes in every ASCII-compatible
    encoding and holds no line break for a text-mode file to translate. *)

Lemma all_printable_append (a b : string) :
  all_printable (a ++ b) = all_printable a && all_printable b.
Proof.
  induction a as [|c a IH]; [reflexivity|].
  cbn [append all_printable]. rewrite IH. apply andb_assoc.
Qed.

Lemma escape_char_printable (c : ascii) :
  all_printable (escape_char c) = true.
Proof. destruct c as [[|] [|] [|] [|] [|] [|] [|] [|]]; reflexivity. Qed.

Lemma escape_printable (s : string) : all_printable (escape s) = true.
Proof.
  induction s as [|c s IH]; [reflexivity|].
  cbn [escape]. now rewrite all_printable_append, escape_char_printable, IH.
Qed.

Lemma encode_basestring_ascii_printable (s : string) :
  all_printable (encode_basestring_ascii s) = true.
Proof.
  unfold encode_basestring_ascii. cbn [all_printable].
  now rewrite all_printable_append, escape_printable.
Qed.

Lemma string_of_uint_printable (d : Decimal.uint) :
  all_printable (NilEmpty.string_of_uint d) = true.
Proof. induction d; cbn [NilEmpty.string_of_uint all_printable]; auto. Qed.

Lemma int_repr_printable (n : Z) : all_printable (int_repr n) = true.
Proof.
  unfold int_repr.
  destruct (Z.to_int n) as [d|d]; cbn [NilEmpty.string_of_int all_printable];
    rewrite string_of_uint_printable; reflexivity.
Qed.

Lemma concat_printable (l : list string) :
  Forall (fun s => all_printable s = true) l ->
  all_printable (String.concat ", " l) = true.
Proof.
  induction 1 as [|x l Hx Hl IH]; [reflexivity|].
  destruct l as [|y l]; [exact Hx|].
  rewrite concat_cons2, !all_printable_append, Hx, IH. reflexivity.
Qed.

Theorem dumps_printable (v : pyval) : all_printable (dumps v) = true.
Proof.
  induction v as [|b|n|s|xs IH|kvs IH] using pyval_nested_ind.
  - reflexivity.
  - destruct b; reflexivity.
  - apply int_repr_printable.
  - apply encode_basestring_ascii_printable.
  - rewrite dumps_list, !all_printable_append, concat_printable; [reflexivity|].
    induction IH; constructor; assumption.
  - rewrite dumps_dict, !all_printable_append, concat_printable; [reflexivity|].
    induction IH as [|[k x] kvs Hx _ IHkvs]; constructor; [|assumption].
    unfold item. cbn [snd] in Hx.
    now rewrite !all_printable_append, encode_basestring_ascii_printable, Hx.
Qed.

Theorem loads_dumps (v : pyval) : loads (dumps v) = Some v.
Proof.
  unfold loads.
  rewrite <- (append_nil_r (dumps v)) at 2.
  rewrite parse_value_dumps; [reflexivity | exact I | lia].
Qed.

End JsonFacts.

Module ScriptFacts.
Import Bytes BytesFacts Json JsonFacts Script.
Local Open Scope string_scope.

Lemma bind_ok {A B : Type} (m : M A) (k : A -> M B) (w w' : world) (a : A) :
  m w = (Ok a, w') -> (m ≫= k) w = k a w'.
Proof. intros H. unfold mbind, M_bind. now rewrite H. Qed.

Lemma bind_raise {A B : Type} (m : M A) (k : A -> M B) (w w' : world) (e : exn) :
  m w = (Raise e, w') -> (m ≫= k) w = (Raise e, w').
Proof. intros H. unfold mbind, M_bind. now rewrite H. Qed.

Lemma read_binary_file (path : string) (w : world) (B : list byte) :
  files w !! path = Some (File B) ->
  read_binary path w =
  (Ok B, World (files w) (opened w ++ [(path, ReadBinary)]) (stdout w)).
Proof.
  intros H. unfold read_binary.
  erewrite bind_ok by reflexivity.
  unfold fetch. cbn [files]. now rewrite H.
Qed.

Lemma read_binary_missing (path : string) (w : world) :
  files w !! path = None ->
  read_binary path w =
  (Raise (FileNotFoundError path),
   World (files w) (opened w ++ [(path, ReadBinary)]) (stdout w)).
Proof.
  intros H. unfold read_binary.
  erewrite bind_ok by reflexivity.
  unfold fetch. cbn [files]. now rewrite H.
Qed.

Lemma open_write_ok (path : string) (w : world) :
  is_directory w path = false ->
  open_write path w =
  (Ok path,
   World (<[path := File []]> (files w))
         (opened w ++ [(path, WriteText)]) (stdout w)).
Proof.
  intros H. unfold open_write.
  erewrite bind_ok by reflexivity.
  unfold truncate. cbn [files opened stdout].
  unfold is_directory in H.
  destruct (files w !! path) as [[content|]|]; congruence.
Qed.

Lemma json_dump_fresh (obj : pyval) (path : string) (w : world) :
  files w !! path = Some (File []) ->
  json_dump obj path w =
  (Ok tt,
   World (<[path := File (encode (dumps obj))]> (files w))
         (opened w) (stdout w)).
Proof.
  intros H. unfold json_dump, write. rewrite H. reflexivity.
Qed.

Lemma main_ok (w : world) (B : list byte) :
  ready w B ->
  main w =
  (Ok tt,
   World (<[output_path := File (encode (output_text B))]> (files w))
         (opened w ++ [(input_path, ReadBinary); (output_path, WriteText)])
         (stdout w ++ ["Request created successfully"])).
Proof.
  intros [Hin Hout]. unfold main.
  erewrite bind_ok by (apply read_binary_file; exact Hin).
  erewrite bind_ok by (apply open_write_ok; exact Hout).
  erewrite bind_ok
    by (apply json_dump_fresh; cbn [files]; apply lookup_insert_eq).
  unfold print. cbn [files opened stdout].
  rewrite insert_insert_eq, <- app_assoc. reflexivity.
Qed.

Lemma main_missing (w : world) :
  files w !! input_path = None ->
  main w =
  (Raise (FileNotFoundError input_path),
   World (files w) (opened w ++ [(input_path, ReadBinary)]) (stdout w)).
Proof.
  intros Hin. unfold main.
  now erewrite bind_raise by (apply read_binary_missing; exact Hin).
Qed.

Lemma written_request_run (w : world) (B : list byte) :
  ready w B -> written_request (run w) = Some (request B).
Proof.
  intros H. unfold run, written_request. rewrite (main_ok w B H).
  cbn [snd files]. rewrite lookup_insert_eq, decode_encode.
  apply loads_dumps.
Qed.

Lemma data_text_request (B : list byte) :
  data_text (request B) = Some (dumps (PyDict (data B))).
Proof. reflexivity. Qed.

Lemma written_metadata_run (w : world) (B : list byte) :
  ready w B -> written_metadata (run w) = Some (data B).
Proof.
  intros H. unfold written_metadata.
  rewrite (written_request_run w B H), data_text_request, loads_dumps.
  reflexivity.
Qed.


(** The written text is printable ASCII whatever the input holds. *)
Lemma output_text_printable (B : list byte) :
  all_printable (output_text B) = true.
Proof. apply dumps_printable. Qed.

Lemma ready_world_with (B : list byte) : ready (world_with B) B.
Proof. split; reflexivity. Qed.

(** A run leaves the input file alone, so the script can run again. *)
Lemma ready_run (w : world) (B : list byte) : ready w B -> ready (run w) B.
Proof.
  intros H. unfold run. rewrite (main_ok w B H). cbn [snd].
  destruct H as [Hin Hout]. split.
  - cbn [files]. rewrite lookup_insert_ne by discriminate. exact Hin.
  - unfold is_directory. cbn [files]. now rewrite lookup_insert_eq.
Qed.

Lemma output_run (w : world) (B : list byte) :
  ready w B ->
  files (run w) !! output_path = Some (File (encode (output_text B))).
Proof.
  intros H. unfold run. rewrite (main_ok w B H). cbn [snd files].
  apply lookup_insert_eq.
Qed.

End ScriptFacts.

(** * The script's properties *)

Import Bytes Json Script.
Import BytesFacts SHA256Facts Base64Facts JsonFacts ScriptFacts.
Local Open Scope string_scope.

(** C1: for every input file with byte content [B], the [content_hash]
    field of the metadata the script produces, as recovered from the output
    file, is the SHA-256 digest of [B] written in lowercase hexadecimal, and
    it has exactly 64 characters. *)
Theorem content_hash_is_sha256_hex (w : world) (B : list byte) :
  ready w B ->
  exists h,
    written_metadata (run w) = Some (data B)
    /\ dict_get (data B) "content_hash" = Some (PyStr h)
    /\ h = SHA256.hexdigest B
    /\ String.length h = 64%nat
    /\ forallb is_lower_hex (list_ascii_of_string h) = true.
Proof.
  intros H. exists (SHA256.hexdigest B).
  split; [apply written_metadata_run; exact H|].
  split; [reflexivity|]. split; [reflexivity|].
  split; [apply length_hexdigest | apply hexdigest_lower].
Qed.

Lemma content_hash_is_sha256_hex_witness :
  ready (world_with (encode "abc")) (encode "abc")
  /\ exists h,
       written_metadata (run (world_with (encode "abc")))
       = Some (data (encode "abc"))
       /\ dict_get (data (encode "abc")) "content_hash" = Some (PyStr h)
       /\ h = SHA256.hexdigest (encode "abc")
       /\ String.length h = 64%nat
       /\ forallb is_lower_hex (list_ascii_of_string h) = true.
Proof.
  split; [split; reflexivity|].
  apply (content_hash_is_sha256_hex (world_with (encode "abc")) (encode "abc")).
  split; reflexivity.
Defined.

(** C2: for every input file with byte content [B], the [size_bytes] field
    of the produced metadata is the number of bytes of [B], a non-negative
    integer. *)
Theorem size_bytes_is_length (w : world) (B : list byte) :
  ready w B ->
  written_metadata (run w) = Some (data B)
  /\ dict_get (data B) "size_bytes" = Some (PyInt (Z.of_nat (length B)))
  /\ (0 <= Z.of_nat (length B))%Z.
Proof.
  intros H. split; [apply written_metadata_run; exact H|].
  split; [reflexivity | lia].
Qed.

Lemma size_bytes_is_length_witness :
  ready (world_with [x00; xff; x0a]) [x00; xff; x0a]
  /\ written_metadata (run (world_with [x00; xff; x0a]))
     = Some (data [x00; xff; x0a])
  /\ dict_get (data [x00; xff; x0a]) "size_bytes"
     = Some (PyInt (Z.of_nat (length [x00; xff; x0a])))
  /\ (0 <= Z.of_nat (length [x00; xff; x0a]))%Z.
Proof.
  split; [split; reflexivity|].
  apply (size_bytes_is_length (world_with [x00; xff; x0a]) [x00; xff; x0a]).
  split; reflexivity.
Defined.

(** C3: for every input file with byte content [B], decoding the produced
    [file_data] from base64 gives back exactly [B]; hence [size_bytes] is
    the length of the decoded bytes and [content_hash] is the SHA-256 digest
    of the decoded bytes. *)
Theorem file_data_round_trip (w : world) (B : list byte) :
  ready w B ->
  exists md text decoded,
    written_metadata (run w) = Some md
    /\ dict_get md "file_data" = Some (PyStr text)
    /\ Base64.b64decode text = Some decoded
    /\ decoded = B
    /\ dict_get md "size_bytes" = Some (PyInt (Z.of_nat (length decoded)))
    /\ dict_get md "content_hash" = Some (PyStr (SHA256.hexdigest decoded)).
Proof.
  intros H. exists (data B), (file_content_b64 B), B.
  split; [apply written_metadata_run; exact H|].
  split; [reflexivity|].
  split; [apply b64decode_b64encode|].
  repeat split.
Qed.

Lemma file_data_round_trip_witness :
  ready (world_with [xde; xad; xbe; xef]) [xde; xad; xbe; xef]
  /\ exists md text decoded,
       written_metadata (run (world_with [xde; xad; xbe; xef])) = Some md
       /\ dict_get md "file_data" = Some (PyStr text)
       /\ Base64.b64decode text = Some decoded
       /\ decoded = [xde; xad; xbe; xef]
       /\ dict_get md "size_bytes" = Some (PyInt (Z.of_nat (length decoded)))
       /\ dict_get md "content_hash"
          = Some (PyStr (SHA256.hexdigest decoded)).
Proof.
  split; [split; reflexivity|].
  apply (file_data_round_trip (world_with [xde; xad; xbe; xef])).
  split; reflexivity.
Defined.

(** C4: for every input file, the document written to the output file is
    well-formed JSON with exactly the two top-level keys [query], a string,
    and [variables], an object holding [input], an object holding [data];
    and [data] is a string that parses as a JSON object with exactly the six
    keys filename, content_hash, size_bytes, mime_type, encrypted_key and
    file_data. *)
Theorem output_document_shape (w : world) (B : list byte) :
  ready w B ->
  exists bs q text md,
    files (run w) !! output_path = Some (File bs)
    /\ loads (decode bs)
       = Some (PyDict
                 [ ("query", PyStr q);
                   ("variables",
                    PyDict [ ("input", PyDict [ ("data", PyStr text) ]) ]) ])
    /\ loads text = Some (PyDict md)
    /\ keys md = [ "filename"; "content_hash"; "size_bytes"; "mime_type";
                   "encrypted_key"; "file_data" ].
Proof.
  intros H.
  exists (encode (output_text B)), query, (dumps (PyDict (data B))), (data B).
  split; [apply output_run; exact H|].
  split; [rewrite decode_encode; apply loads_dumps|].
  split; [apply loads_dumps | reflexivity].
Qed.

Lemma output_document_shape_witness :
  ready (world_with (encode "{}")) (encode "{}")
  /\ exists bs q text md,
       files (run (world_with (encode "{}"))) !! output_path = Some (File bs)
       /\ loads (decode bs)
          = Some (PyDict
                    [ ("query", PyStr q);
                      ("variables",
                       PyDict [ ("input", PyDict [ ("data", PyStr text) ]) ]) ])
       /\ loads text = Some (PyDict md)
       /\ keys md = [ "filename"; "content_hash"; "size_bytes"; "mime_type";
                      "encrypted_key"; "file_data" ].
Proof.
  split; [split; reflexivity|].
  apply (output_document_shape (world_with (encode "{}")) (encode "{}")).
  split; reflexivity.
Defined.

(** C5: when the input file does not exist, the script aborts with a
    file-not-found error; no file is created or changed, nothing is printed,
    and the only call to [open] is the failed one on the input path, so the
    output path is never opened. *)
Theorem missing_input_aborts (w : world) :
  files w !! input_path = None ->
  exists w',
    main w = (Raise (FileNotFoundError input_path), w')
    /\ files w' = files w
    /\ stdout w' = stdout w
    /\ opened w' = (opened w ++ [(input_path, ReadBinary)])%list.
Proof.
  intros Hin. eexists. split; [apply main_missing; exact Hin|].
  cbn [files stdout opened]. repeat split.
Qed.

Lemma missing_input_aborts_witness :
  files (World {[ output_path := File [x01] ]} [] []) !! input_path = None
  /\ exists w',
       main (World {[ output_path := File [x01] ]} [] [])
       = (Raise (FileNotFoundError input_path), w')
       /\ files w' = {[ output_path := File [x01] ]}
       /\ stdout w' = []
       /\ opened w' = [(input_path, ReadBinary)].
Proof.
  split; [reflexivity|].
  exact (missing_input_aborts (World {[ output_path := File [x01] ]} [] [])
           eq_refl).
Defined.

(** C6: the output is a function of the input bytes alone.  From any two
    worlds holding the same input content the script writes the same bytes,
    and running it a second time on the world the first run left behind
    writes the same bytes again. *)
Theorem output_deterministic (w w' : world) (B : list byte) :
  ready w B -> ready w' B ->
  files (run w) !! output_path = Some (File (encode (output_text B)))
  /\ files (run w') !! output_path = files (run w) !! output_path
  /\ files (run (run w)) !! output_path = files (run w) !! output_path.
Proof.
  intros H H'.
  rewrite (output_run w B H), (output_run w' B H').
  rewrite (output_run (run w) B (ready_run w B H)).
  repeat split.
Qed.

Lemma output_deterministic_witness :
  ready (world_with hello) hello
  /\ ready (World {[ input_path := File hello; output_path := File [x00];
                     "notes.txt" := Dir ]}
                  [("notes.txt", ReadBinary)] ["earlier line"]) hello
  /\ files (run (world_with hello)) !! output_path
     = Some (File (encode (output_text hello)))
  /\ files (run (World {[ input_path := File hello;
                          output_path := File [x00];
                          "notes.txt" := Dir ]}
                       [("notes.txt", ReadBinary)] ["earlier line"]))
       !! output_path
     = files (run (world_with hello)) !! output_path
  /\ files (run (run (world_with hello))) !! output_path
     = files (run (world_with hello)) !! output_path.
Proof.
  split; [split; reflexivity|]. split; [split; reflexivity|].
  apply (output_deterministic (world_with hello) _ hello); split; reflexivity.
Defined.

(** C7: for the input file holding the five ASCII bytes of "hello", the
    produced metadata has [size_bytes] 5, the [content_hash] below and
    [file_data] "aGVsbG8=". *)
Theorem hello_scenario (w : world) :
  ready w hello ->
  exists md,
    written_metadata (run w) = Some md
    /\ dict_get md "size_bytes" = Some (PyInt 5)
    /\ dict_get md "content_hash"
       = Some (PyStr
           "2cf24dba5fb0a30e26e83b2ac5b9e29e1b161e5c1fa7425e73043362938b9824")
    /\ dict_get md "file_data" = Some (PyStr "aGVsbG8=").
Proof.
  intros H. exists (data hello).
  split; [apply written_metadata_run; exact H|].
  repeat split; vm_compute; reflexivity.
Qed.

Lemma hello_scenario_witness :
  ready (world_with hello) hello
  /\ exists md,
       written_metadata (run (world_with hello)) = Some md
       /\ dict_get md "size_bytes" = Some (PyInt 5)
       /\ dict_get md "content_hash"
          = Some (PyStr
              "2cf24dba5fb0a30e26e83b2ac5b9e29e1b161e5c1fa7425e73043362938b9824")
       /\ dict_get md "file_data" = Some (PyStr "aGVsbG8=").
Proof.
  split; [split; reflexivity|].
  apply (hello_scenario (world_with hello)). split; reflexivity.
Defined.

(** C8: for the empty input file, the produced metadata has [size_bytes] 0,
    the [content_hash] below (the digest of no bytes) and an empty
    [file_data]. *)
Theorem empty_scenario (w : world) :
  ready w [] ->
  exists md,
    written_metadata (run w) = Some md
    /\ dict_get md "size_bytes" = Some (PyInt 0)
    /\ dict_get md "content_hash"
       = Some (PyStr
           "e3b0c44298fc1c149afbf4c8996fb92427ae41e4649b934ca495991b7852b855")
    /\ dict_get md "file_data" = Some (PyStr EmptyString).
Proof.
  intros H. exists (data []).
  split; [apply written_metadata_run; exact H|].
  repeat split; vm_compute; reflexivity.
Qed.

Lemma empty_scenario_witness :
  ready (world_with []) []
  /\ exists md,
       written_metadata (run (world_with [])) = Some md
       /\ dict_get md "size_bytes" = Some (PyInt 0)
       /\ dict_get md "content_hash"
          = Some (PyStr
              "e3b0c44298fc1c149afbf4c8996fb92427ae41e4649b934ca495991b7852b855")
       /\ dict_get md "file_data" = Some (PyStr EmptyString).
Proof.
  split; [split; reflexivity|].
  apply (empty_scenario (world_with [])). split; reflexivity.
Defined.

(** C9: whatever the input file holds, [mime_type] is the constant
    "text/plain" and [encrypted_key] is the constant "dGVzdGtleQ=="; two
    inputs never differ on these fields. *)
Theorem mime_type_and_key_constant (w w' : world) (B B' : list byte) :
  ready w B -> ready w' B' ->
  exists md md',
    written_metadata (run w) = Some md
    /\ written_metadata (run w') = Some md'
    /\ dict_get md "mime_type" = Some (PyStr "text/plain")
    /\ dict_get md "encrypted_key" = Some (PyStr "dGVzdGtleQ==")
    /\ dict_get md' "mime_type" = dict_get md "mime_type"
    /\ dict_get md' "encrypted_key" = dict_get md "encrypted_key".
Proof.
  intros H H'. exists (data B), (data B').
  split; [apply written_metadata_run; exact H|].
  split; [apply written_metadata_run; exact H'|].
  repeat split.
Qed.

Lemma mime_type_and_key_constant_witness :
  ready (world_with hello) hello
  /\ ready (world_with (encode "dGVzdGtleQ==")) (encode "dGVzdGtleQ==")
  /\ exists md md',
       written_metadata (run (world_with hello)) = Some md
       /\ written_metadata (run (world_with (encode "dGVzdGtleQ=="))) = Some md'
       /\ dict_get md "mime_type" = Some (PyStr "text/plain")
       /\ dict_get md "encrypted_key" = Some (PyStr "dGVzdGtleQ==")
       /\ dict_get md' "mime_type" = dict_get md "mime_type"
       /\ dict_get md' "encrypted_key" = dict_get md "encrypted_key".
Proof.
  split; [split; reflexivity|]. split; [split; reflexivity|].
  apply (mime_type_and_key_constant (world_with hello)
           (world_with (encode "dGVzdGtleQ==")) hello (encode "dGVzdGtleQ=="));
    split; reflexivity.
Defined.

(** C10: whatever the input file holds, the [filename] field is the constant
    "test_file.txt", which is also the path the script opens for reading. *)
Theorem filename_constant (w : world) (B : list byte) :
  ready w B ->
  exists md name,
    written_metadata (run w) = Some md
    /\ dict_get md "filename" = Some (PyStr name)
    /\ name = "test_file.txt"
    /\ opened (run w)
       = (opened w ++ [(name, ReadBinary); (output_path, WriteText)])%list.
Proof.
  intros H. exists (data B), "test_file.txt".
  split; [apply written_metadata_run; exact H|].
  split; [reflexivity|]. split; [reflexivity|].
  unfold run. rewrite (main_ok w B H). reflexivity.
Qed.

Lemma filename_constant_witness :
  ready (world_with (encode "other_name.txt")) (encode "other_name.txt")
  /\ exists md name,
       written_metadata (run (world_with (encode "other_name.txt"))) = Some md
       /\ dict_get md "filename" = Some (PyStr name)
       /\ name = "test_file.txt"
       /\ opened (run (world_with (encode "other_name.txt")))
          = [(name, ReadBinary); (output_path, WriteText)].
Proof.
  split; [split; reflexivity|].
  exact (filename_constant (world_with (encode "other_name.txt"))
           (encode "other_name.txt") (conj eq_refl eq_refl)).
Defined.

(** * Further properties of the script *)

Module RunFacts.

Lemma read_binary_dir (path : string) (w : world) :
  files w !! path = Some Dir ->
  read_binary path w =
  (Raise (IsADirectoryError path),
   World (files w) (opened w ++ [(path, ReadBinary)]) (stdout w)).
Proof.
  intros H. unfold read_binary.
  erewrite bind_ok by reflexivity.
  unfold fetch. cbn [files]. now rewrite H.
Qed.

Lemma open_write_dir (path : string) (w : world) :
  is_directory w path = true ->
  open_write path w =
  (Raise (IsADirectoryError path),
   World (files w) (opened w ++ [(path, WriteText)]) (stdout w)).
Proof.
  intros H. unfold open_write.
  erewrite bind_ok by reflexivity.
  unfold truncate. cbn [files opened stdout].
  unfold is_directory in H.
  destruct (files w !! path) as [[content|]|]; try discriminate H.
  reflexivity.
Qed.

Lemma main_input_dir (w : world) :
  files w !! input_path = Some Dir ->
  main w =
  (Raise (IsADirectoryError input_path),
   World (files w) (opened w ++ [(input_path, ReadBinary)]) (stdout w)).
Proof.
  intros Hin. unfold main.
  now erewrite bind_raise by (apply read_binary_dir; exact Hin).
Qed.

Lemma main_output_dir (w : world) (B : list byte) :
  files w !! input_path = Some (File B) ->
  is_directory w output_path = true ->
  main w =
  (Raise (IsADirectoryError output_path),
   World (files w)
         (opened w ++ [(input_path, ReadBinary); (output_path, WriteText)])
         (stdout w)).
Proof.
  intros Hin Hout. unfold main.
  erewrite bind_ok by (apply read_binary_file; exact Hin).
  erewrite bind_raise by (apply open_write_dir; exact Hout).
  cbn [files opened stdout]. now rewrite <- app_assoc.
Qed.


End RunFacts.

Import RunFacts.



(** X2: when the input path is a directory, the run raises
    [IsADirectoryError] on the input path; no file changes, nothing is
    printed and the output path is not opened. *)
Theorem directory_input_aborts (w : world) :
  files w !! input_path = Some Dir ->
  exists w',
    main w = (Raise (IsADirectoryError input_path), w')
    /\ files w' = files w
    /\ stdout w' = stdout w
    /\ opened w' = (opened w ++ [(input_path, ReadBinary)])%list.
Proof.
  intros Hin. eexists. split; [apply main_input_dir; exact Hin|].
  repeat split.
Qed.

Lemma directory_input_aborts_witness :
  files (World {[ input_path := Dir ]} [] []) !! input_path = Some Dir
  /\ exists w',
       main (World {[ input_path := Dir ]} [] [])
       = (Raise (IsADirectoryError input_path), w')
       /\ files w' = {[ input_path := Dir ]}
       /\ stdout w' = []
       /\ opened w' = [(input_path, ReadBinary)].
Proof.
  split; [reflexivity|].
  exact (directory_input_aborts (World {[ input_path := Dir ]} [] []) eq_refl).
Defined.

(** X3: when the input is a regular file but the output path is a directory,
    the run raises [IsADirectoryError] on the output path after reading the
    input; no file changes and the success line is not printed. *)
Theorem directory_output_aborts (w : world) (B : list byte) :
  files w !! input_path = Some (File B) ->
  is_directory w output_path = true ->
  exists w',
    main w = (Raise (IsADirectoryError output_path), w')
    /\ files w' = files w
    /\ stdout w' = stdout w
    /\ opened w'
       = (opened w ++ [(input_path, ReadBinary); (output_path, WriteText)])%list.
Proof.
  intros Hin Hout. eexists.
  split; [apply (main_output_dir w B); assumption|].
  repeat split.
Qed.

Lemma directory_output_aborts_witness :
  files (World {[ input_path := File hello; output_path := Dir ]} [] [])
    !! input_path = Some (File hello)
  /\ is_directory
       (World {[ input_path := File hello; output_path := Dir ]} [] [])
       output_path = true
  /\ exists w',
       main (World {[ input_path := File hello; output_path := Dir ]} [] [])
       = (Raise (IsADirectoryError output_path), w')
       /\ files w' = {[ input_path := File hello; output_path := Dir ]}
       /\ stdout w' = []
       /\ opened w' = [(input_path, ReadBinary); (output_path, WriteText)].
Proof.
  split; [reflexivity|]. split; [reflexivity|].
  exact (directory_output_aborts
           (World {[ input_path := File hello; output_path := Dir ]} [] [])
           hello eq_refl eq_refl).
Defined.








(** * Further properties of the data the script builds *)

Module DataFacts.
Import Base64.
#[local] Arguments String.append !s1 s2 : simpl nomatch.

Lemma escape_char_plain (c : ascii) :
  is_plain c = true -> escape_char c = String c EmptyString.
Proof.
  destruct c as [[|] [|] [|] [|] [|] [|] [|] [|]];
    intros H; try discriminate H; reflexivity.
Qed.

Lemma escape_plain (s : string) : all_plain s = true -> escape s = s.
Proof.
  induction s as [|c s IH]; [reflexivity|].
  cbn [all_plain escape]. intros [Hc Hs]%andb_true_iff.
  now rewrite (escape_char_plain c Hc), (IH Hs).
Qed.

Lemma escape_append (a b : string) : escape (a ++ b) = escape a ++ escape b.
Proof.
  induction a as [|c a IH]; [reflexivity|].
  cbn [append escape]. now rewrite IH, append_assoc.
Qed.

Lemma all_plain_append (a b : string) :
  all_plain (a ++ b) = all_plain a && all_plain b.
Proof.
  induction a as [|c a IH]; [reflexivity|].
  cbn [append all_plain]. rewrite IH. apply andb_assoc.
Qed.

Lemma lower_hex_plain (c : ascii) : is_lower_hex c = true -> is_plain c = true.
Proof.
  destruct c as [[|] [|] [|] [|] [|] [|] [|] [|]];
    intros H; try discriminate H; reflexivity.
Qed.

Lemma lower_hex_all_plain (s : string) :
  forallb is_lower_hex (list_ascii_of_string s) = true -> all_plain s = true.
Proof.
  induction s as [|c s IH]; [reflexivity|].
  cbn [list_ascii_of_string forallb all_plain].
  intros [Hc Hs]%andb_true_iff. now rewrite (lower_hex_plain c Hc), (IH Hs).
Qed.

Lemma file_hash_plain (B : list byte) : all_plain (file_hash B) = true.
Proof. apply lower_hex_all_plain, hexdigest_lower. Qed.

Lemma symbol_plain (b : byte) :
  is_alphabet b || is_pad b = true -> is_plain (ascii_of_byte b) = true.
Proof. destruct b; intros H; try discriminate H; reflexivity. Qed.

Lemma is_alphabet_char (n : Z) :
  (0 <= n < 64)%Z -> is_alphabet (b64_char n) = true.
Proof. intros H. unfold is_alphabet. now rewrite b64_value_char. Qed.

Lemma pad_count_add3 (n : nat) : pad_count (S (S (S n))) = pad_count n.
Proof.
  unfold pad_count. replace (S (S (S n))) with (n + 1 * 3)%nat by lia.
  now rewrite Nat.Div0.mod_add.
Qed.

Lemma b64encode_shape (bs : list byte) :
  exists body,
    b64encode bs = (body ++ repeat pad_char (pad_count (length bs)))%list
    /\ forallb is_alphabet body = true.
Proof.
  induction bs as [|a|a b|a b c bs (body & Heq & Hbody)] using list_ind_by3.
  - exists []. split; reflexivity.
  - pose proof (byte_to_Z_range a).
    eexists [_; _]. split; [reflexivity|].
    cbn [forallb]. rewrite !is_alphabet_char; [reflexivity| |].
    + apply sextet2_range; lia.
    + apply sextet1_range; lia.
  - pose proof (byte_to_Z_range a). pose proof (byte_to_Z_range b).
    eexists [_; _; _]. split; [reflexivity|].
    cbn [forallb]. rewrite !is_alphabet_char; [reflexivity| | |].
    + apply sextet3_range; lia.
    + apply sextet2_range; lia.
    + apply sextet1_range; lia.
  - pose proof (byte_to_Z_range a). pose proof (byte_to_Z_range b).
    pose proof (byte_to_Z_range c).
    eexists (_ :: _ :: _ :: _ :: body). split.
    + cbn [b64encode length]. rewrite pad_count_add3, Heq. reflexivity.
    + cbn [forallb]. rewrite Hbody, !is_alphabet_char; [reflexivity| | | |].
      * apply sextet4_range.
      * apply sextet3_range; lia.
      * apply sextet2_range; lia.
      * apply sextet1_range; lia.
Qed.

Lemma length_b64encode (bs : list byte) :
  length (b64encode bs) = (4 * ((length bs + 2) / 3))%nat.
Proof.
  induction bs as [|a|a b|a b c bs IH] using list_ind_by3;
    try reflexivity.
  cbn [b64encode length]. rewrite IH.
  replace (S (S (S (length bs))) + 2)%nat with (length bs + 2 + 1 * 3)%nat by lia.
  rewrite Nat.div_add by lia. lia.
Qed.

Lemma decode_plain (bs : list byte) :
  forallb (fun b => is_alphabet b || is_pad b) bs = true ->
  all_plain (decode bs) = true.
Proof.
  unfold decode, string_of_list_byte.
  induction bs as [|b bs IH]; [reflexivity|].
  cbn [forallb map string_of_list_ascii all_plain].
  intros [Hb Hbs]%andb_true_iff. now rewrite (symbol_plain b Hb), (IH Hbs).
Qed.

Lemma file_content_b64_plain (B : list byte) :
  all_plain (file_content_b64 B) = true.
Proof.
  unfold file_content_b64. apply decode_plain.
  destruct (b64encode_shape B) as (body & -> & Hbody).
  rewrite forallb_app. apply andb_true_iff. split.
  - rewrite forallb_forall in *. intros b Hb. now rewrite (Hbody b Hb).
  - rewrite forallb_forall. intros b Hb. apply repeat_spec in Hb. now subst.
Qed.

Lemma string_of_uint_plain (d : Decimal.uint) :
  all_plain (NilEmpty.string_of_uint d) = true.
Proof. induction d; cbn [NilEmpty.string_of_uint all_plain]; auto. Qed.

Lemma int_repr_plain (n : Z) : all_plain (int_repr n) = true.
Proof.
  unfold int_repr.
  destruct (Z.to_int n) as [d|d]; cbn [NilEmpty.string_of_int all_plain];
    rewrite string_of_uint_plain; reflexivity.
Qed.

Lemma length_literal_plain (s : string) :
  all_plain s = true ->
  String.length (encode_basestring_ascii s) = (2 + String.length s)%nat.
Proof.
  intros H. unfold encode_basestring_ascii, chr.
  rewrite (escape_plain s H). cbn [String.length].
  rewrite length_append. cbn [String.length]. lia.
Qed.

Lemma length_escaped_literal_plain (s : string) :
  all_plain s = true ->
  String.length (escape (encode_basestring_ascii s))
  = (4 + String.length s)%nat.
Proof.
  intros H. unfold encode_basestring_ascii, chr.
  rewrite (escape_plain s H).
  change (String dquote (s ++ String dquote EmptyString))
    with (String dquote EmptyString ++ s ++ String dquote EmptyString).
  rewrite !escape_append, (escape_plain s H), !length_append.
  change (escape (String dquote EmptyString))
    with (String backslash (String dquote EmptyString)).
  cbn [String.length]. lia.
Qed.

Lemma length_inner_escaped (B : list byte) :
  String.length (escape (dumps (PyDict (data B))))
  = (228 + String.length (int_repr (file_size B)) + 4 * ((length B + 2) / 3))%nat.
Proof.
  rewrite dumps_dict. unfold data.
  cbn [map String.concat item dumps].
  rewrite !escape_append, !length_append.
  rewrite !length_escaped_literal_plain
    by first [ reflexivity | apply file_hash_plain | apply file_content_b64_plain ].
  rewrite !escape_plain by first [ reflexivity | apply int_repr_plain ].
  unfold file_hash, file_content_b64.
  rewrite length_hexdigest, length_decode, length_b64encode.
  cbn [String.length]. lia.
Qed.

Lemma length_output_text (B : list byte) :
  String.length (output_text B)
  = (421 + String.length (int_repr (file_size B)) + 4 * ((length B + 2) / 3))%nat.
Proof.
  unfold output_text, request.
  rewrite dumps_dict. cbn [map String.concat item].
  rewrite (dumps_dict [("input", _)]). cbn [map String.concat item].
  rewrite (dumps_dict [("data", _)]). cbn [map String.concat item].
  change (dumps (PyStr ?s)) with (encode_basestring_ascii s).
  rewrite !length_append.
  rewrite !length_literal_plain by reflexivity.
  unfold encode_basestring_ascii at 1. cbn [String.length].
  rewrite length_append, length_inner_escaped.
  let n := eval vm_compute in (String.length query) in
  change (String.length query) with n.
  unfold chr. cbn [String.length]. lia.
Qed.

Lemma byte_of_ascii_to_Z (c : ascii) :
  byte_to_Z (byte_of_ascii c) = ascii_to_Z c.
Proof. destruct c as [[|] [|] [|] [|] [|] [|] [|] [|]]; reflexivity. Qed.

Lemma encode_printable (s : string) :
  all_printable s = true ->
  Forall (fun b => (32 <= byte_to_Z b <= 126)%Z) (encode s).
Proof.
  unfold encode, list_byte_of_string.
  induction s as [|c s IH]; [constructor|].
  cbn [all_printable list_ascii_of_string map].
  intros [Hc Hs]%andb_true_iff. constructor; [|exact (IH Hs)].
  rewrite byte_of_ascii_to_Z. unfold is_printable in Hc.
  apply andb_true_iff in Hc as [H1 H2]. lia.
Qed.

Lemma length_encode (s : string) : length (encode s) = String.length s.
Proof.
  unfold encode, list_byte_of_string. rewrite length_map.
  induction s as [|c s IH]; [reflexivity|].
  cbn [list_ascii_of_string length String.length]. now rewrite IH.
Qed.

Lemma dumps_inj (v v' : pyval) : dumps v = dumps v' -> v = v'.
Proof.
  intros H. apply (f_equal loads) in H.
  rewrite (loads_dumps v), (loads_dumps v') in H. now injection H.
Qed.

Lemma output_text_injective (B B' : list byte) :
  output_text B = output_text B' -> B = B'.
Proof.
  unfold output_text. intros H.
  apply dumps_inj in H.
  assert (Hd : dumps (PyDict (data B)) = dumps (PyDict (data B'))).
  { unfold request in H. congruence. }
  apply dumps_inj in Hd.
  assert (Hf : file_content_b64 B = file_content_b64 B').
  { unfold data in Hd. congruence. }
  apply (f_equal b64decode) in Hf.
  unfold file_content_b64 in Hf.
  rewrite (b64decode_b64encode B), (b64decode_b64encode B') in Hf.
  now injection Hf.
Qed.

End DataFacts.

Import DataFacts.

(** X8: the length of [file_data] is four characters for every started
    group of three input bytes. *)
Theorem file_data_length (B : list byte) :
  exists text,
    dict_get (data B) "file_data" = Some (PyStr text)
    /\ String.length text = (4 * ((length B + 2) / 3))%nat.
Proof.
  exists (file_content_b64 B). split; [reflexivity|].
  unfold file_content_b64. now rewrite length_decode, length_b64encode.
Qed.

(** X9: [file_data] is made of characters of the base64 alphabet followed
    by the padding: no [=] after a multiple of three bytes, two after one
    byte over, one after two bytes over. *)
Theorem file_data_alphabet_then_padding (B : list byte) :
  exists body,
    encode (file_content_b64 B)
    = (body ++ repeat Base64.pad_char (Base64.pad_count (length B)))%list
    /\ forallb Base64.is_alphabet body = true.
Proof.
  unfold file_content_b64. rewrite encode_decode. apply b64encode_shape.
Qed.

(** X10: the three computed fields hold nothing [json.dumps] has to escape:
    the hash, the base64 text and the decimal size are written as they
    are, the two strings between double quotes. *)
Theorem computed_fields_verbatim (B : list byte) :
  dumps (PyStr (file_hash B))
  = String dquote (file_hash B ++ String dquote EmptyString)
  /\ dumps (PyStr (file_content_b64 B))
     = String dquote (file_content_b64 B ++ String dquote EmptyString)
  /\ escape (dumps (PyInt (file_size B))) = dumps (PyInt (file_size B)).
Proof.
  cbn [dumps]. unfold encode_basestring_ascii, chr.
  rewrite (escape_plain _ (file_hash_plain B)).
  rewrite (escape_plain _ (file_content_b64_plain B)).
  rewrite (escape_plain _ (int_repr_plain (file_size B))).
  repeat split.
Qed.

(** X11: every byte of the written file is printable ASCII, between 32 and
    126: the file is one line, without control or non-ASCII bytes. *)
Theorem output_bytes_printable (w : world) (B : list byte) :
  ready w B ->
  exists bs,
    files (run w) !! output_path = Some (File bs)
    /\ Forall (fun b => (32 <= byte_to_Z b <= 126)%Z) bs.
Proof.
  intros H. exists (encode (output_text B)).
  split; [apply output_run; exact H|].
  apply encode_printable, output_text_printable.
Qed.

Lemma output_bytes_printable_witness :
  ready (world_with [x0a; xff; x22; x5c]) [x0a; xff; x22; x5c]
  /\ exists bs,
       files (run (world_with [x0a; xff; x22; x5c])) !! output_path
       = Some (File bs)
       /\ Forall (fun b => (32 <= byte_to_Z b <= 126)%Z) bs.
Proof.
  split; [split; reflexivity|].
  apply (output_bytes_printable (world_with [x0a; xff; x22; x5c])
           [x0a; xff; x22; x5c]).
  split; reflexivity.
Defined.

(** X12: the size of the written file is 421 bytes, plus the number of
    decimal digits of the input length, plus four bytes for every started
    group of three input bytes. *)
Theorem output_size (w : world) (B : list byte) :
  ready w B ->
  exists bs,
    files (run w) !! output_path = Some (File bs)
    /\ length bs
       = (421 + String.length (int_repr (file_size B))
          + 4 * ((length B + 2) / 3))%nat.
Proof.
  intros H. exists (encode (output_text B)).
  split; [apply output_run; exact H|].
  rewrite length_encode. apply length_output_text.
Qed.

Lemma output_size_witness :
  ready (world_with hello) hello
  /\ exists bs,
       files (run (world_with hello)) !! output_path = Some (File bs)
       /\ length bs
          = (421 + String.length (int_repr (file_size hello))
             + 4 * ((length hello + 2) / 3))%nat.
Proof.
  split; [split; reflexivity|].
  apply (output_size (world_with hello) hello). split; reflexivity.
Defined.

(** X13: the written file determines the input: two successful runs that
    leave the same output bytes read the same input bytes. *)
Theorem output_determines_input (w w' : world) (B B' : list byte) :
  ready w B -> ready w' B' ->
  files (run w) !! output_path = files (run w') !! output_path ->
  B = B'.
Proof.
  intros H H'. rewrite (output_run w B H), (output_run w' B' H').
  intros Heq. apply output_text_injective.
  assert (Hbytes : encode (output_text B) = encode (output_text B'))
    by congruence.
  apply (f_equal decode) in Hbytes.
  now rewrite (decode_encode (output_text B)),
              (decode_encode (output_text B')) in Hbytes.
Qed.

Lemma output_determines_input_witness :
  ready (world_with hello) hello
  /\ ready (World {[ input_path := File hello; output_path := File [x00] ]}
                  [] ["x"]) hello
  /\ files (run (world_with hello)) !! output_path
     = files (run (World {[ input_path := File hello;
                            output_path := File [x00] ]} [] ["x"]))
         !! output_path
  /\ hello = hello.
Proof.
  split; [split; reflexivity|]. split; [split; reflexivity|].
  split; [vm_compute; reflexivity|].
  apply (output_determines_input
           (world_with hello)
           (World {[ input_path := File hello; output_path := File [x00] ]}
                  [] ["x"]) hello hello);
    [split; reflexivity | split; reflexivity | vm_compute; reflexivity].
Defined.

